(** * ipd: the HTTP front end (http/http.go)

    A shallow embedding of [http.go] of the ipd service: the address
    extraction, the two response builders, the handlers, the dispatch
    adapter [appHandler.ServeHTTP] and the route registration of
    [Server.Handler], followed by the properties the specification states
    about them.

    Go strings are byte sequences: they are [string] here (a list of 8-bit
    [ascii]).  [uint64] values are [Z] with the wrap-around written out where
    the code computes.  A handler's effect on its [http.ResponseWriter] is
    the list of calls it makes on it, in order. *)

From Stdlib Require Import ZArith List String Ascii Bool Lia.
From stdpp Require Import base option list strings gmap.

Local Open Scope Z_scope.

(** ** The Go library functions the file calls *)

(** Bytes as numbers, for the range tests ['0' <= c && c <= '9']. *)
Definition byteZ (c : ascii) : Z := Z.of_N (N_of_ascii c).
Definition byteOf (z : Z) : ascii := ascii_of_N (Z.to_N z).

Definition inRange (lo hi c : ascii) : bool :=
  (byteZ lo <=? byteZ c) && (byteZ c <=? byteZ hi).

Module filepath.

(** [os.IsPathSeparator] on Unix. *)
Definition isPathSeparator (c : ascii) : bool := Ascii.eqb c "/".

(** The loop [for len(path) > 0 && IsPathSeparator(path[len(path)-1])],
    on the reversed path. *)
Fixpoint stripTrailing (rpath : list ascii) : list ascii :=
  match rpath with
  | c :: rest => if isPathSeparator c then stripTrailing rest else rpath
  | [] => []
  end.

(** The loop [for i >= 0 && !IsPathSeparator(path[i]) { i-- }] followed by
    [path = path[i+1:]], on the reversed path: the bytes after the last
    separator, still reversed. *)
Fixpoint lastElement (rpath : list ascii) : list ascii :=
  match rpath with
  | c :: rest => if isPathSeparator c then [] else c :: lastElement rest
  | [] => []
  end.

(** [filepath.Base] (Unix: the volume name is empty). *)
Definition Base (path : string) : string :=
  if String.eqb path "" then "."
  else
    let stripped := stripTrailing (rev (list_ascii_of_string path)) in
    match rev (lastElement stripped) with
    | [] => "/"
    | elem => string_of_list_ascii elem
    end.

End filepath.

Module strconv.

Inductive NumError := ErrSyntax | ErrRange.

Definition maxUint64 : Z := 2 ^ 64 - 1.
Definition wrap64 (z : Z) : Z := z mod 2 ^ 64.

(** [lower(c)]: [c | ('x' - 'X')]. *)
Definition lower (c : ascii) : ascii := byteOf (Z.lor (byteZ c) 32).

(** The [switch] of the digit loop, for an explicit base (no underscores):
    the value of byte [c] as a digit, [None] for the [default] branch. *)
Definition digitOf (c : ascii) : option Z :=
  if inRange "0" "9" c then Some (byteZ c - byteZ "0")
  else if inRange "a" "z" (lower c) then Some (byteZ (lower c) - byteZ "a" + 10)
  else None.

(** The digit loop of [ParseUint], [n] being the value read so far. *)
Fixpoint parseLoop (base cutoff maxVal : Z) (s : string) (n : Z)
  : Z * option NumError :=
  match s with
  | EmptyString => (n, None)
  | String c rest =>
    match digitOf c with
    | None => (0, Some ErrSyntax)
    | Some d =>
      if d >=? base then (0, Some ErrSyntax)
      else if n >=? cutoff then (maxVal, Some ErrRange)
      else
        let n' := wrap64 (n * base) in
        let n1 := wrap64 (n' + d) in
        if (n1 <? n') || (n1 >? maxVal) then (maxVal, Some ErrRange)
        else parseLoop base cutoff maxVal rest n1
    end
  end.

(** [strconv.ParseUint(s, 10, bitSize)] for [1 <= bitSize <= 64]: the
    value and the error ([None] is Go's [nil]). *)
Definition ParseUint10 (s : string) (bitSize : Z) : Z * option NumError :=
  if String.eqb s "" then (0, Some ErrSyntax)
  else parseLoop 10 (maxUint64 / 10 + 1) (2 ^ bitSize - 1) s 0.

(** The decimal digits of [n], most significant first, before [acc]:
    the loop of [formatBits], which writes digits from the right. *)
Fixpoint formatLoop (fuel : nat) (n : Z) (acc : string) : string :=
  let acc' := String (byteOf (byteZ "0" + n mod 10)) acc in
  match fuel with
  | O => acc'
  | S fuel' => if n <? 10 then acc' else formatLoop fuel' (n / 10) acc'
  end.

(** [strconv.FormatUint(n, 10)], which is what the verb [%d] prints for a
    [uint64]; a [uint64] has at most 20 digits. *)
Definition FormatUint (n : Z) : string := formatLoop 19 n "".

End strconv.

Module textproto.

(** [validHeaderFieldByte]: the token bytes of RFC 7230. *)
Definition validHeaderFieldByte (c : ascii) : bool :=
  inRange "0" "9" c || inRange "a" "z" c || inRange "A" "Z" c
  || existsb (Ascii.eqb c)
       (list_ascii_of_string "!#$%&'*+-.^_`|~").

Definition toLower : Z := byteZ "a" - byteZ "A".

(** The second loop of [canonicalMIMEHeaderKey]: upper case for the first
    letter and after each dash, lower case elsewhere. *)
Fixpoint canonicalize (upper : bool) (a : string) : string :=
  match a with
  | EmptyString => EmptyString
  | String c rest =>
    let c' :=
      if upper && inRange "a" "z" c then byteOf (byteZ c - toLower)
      else if negb upper && inRange "A" "Z" c then byteOf (byteZ c + toLower)
      else c in
    String c' (canonicalize (Ascii.eqb c' "-") rest)
  end.

(** [textproto.CanonicalMIMEHeaderKey]: a key with a byte that is not a
    token byte (a space included) is returned unchanged. *)
Definition CanonicalMIMEHeaderKey (s : string) : string :=
  if forallb validHeaderFieldByte (list_ascii_of_string s)
  then canonicalize true s
  else s.

End textproto.

Module utf8.

Definition RuneError : Z := 65533.

Definition cont (lo hi : Z) (c : ascii) : bool :=
  (lo <=? byteZ c) && (byteZ c <=? hi).

(** [utf8.DecodeRuneInString]: the first rune of [s] and its width in
    bytes; [(RuneError, 1)] for an encoding that is not valid (truncated,
    overlong, a surrogate, or above U+10FFFF). *)
Definition DecodeRuneInString (s : string) : Z * nat :=
  match s with
  | EmptyString => (RuneError, 0%nat)
  | String c0 s1 =>
    let b0 := byteZ c0 in
    if b0 <? 128 then (b0, 1%nat)
    else if (194 <=? b0) && (b0 <=? 223) then
      match s1 with
      | String c1 _ =>
        if cont 128 191 c1
        then (Z.lor (Z.shiftl (Z.land b0 31) 6) (Z.land (byteZ c1) 63), 2%nat)
        else (RuneError, 1%nat)
      | _ => (RuneError, 1%nat)
      end
    else if (224 <=? b0) && (b0 <=? 239) then
      let lo := if b0 =? 224 then 160 else 128 in
      let hi := if b0 =? 237 then 159 else 191 in
      match s1 with
      | String c1 (String c2 _) =>
        if cont lo hi c1 && cont 128 191 c2
        then (Z.lor (Z.shiftl (Z.land b0 15) 12)
                (Z.lor (Z.shiftl (Z.land (byteZ c1) 63) 6)
                       (Z.land (byteZ c2) 63)), 3%nat)
        else (RuneError, 1%nat)
      | _ => (RuneError, 1%nat)
      end
    else if (240 <=? b0) && (b0 <=? 244) then
      let lo := if b0 =? 240 then 144 else 128 in
      let hi := if b0 =? 244 then 143 else 191 in
      match s1 with
      | String c1 (String c2 (String c3 _)) =>
        if cont lo hi c1 && cont 128 191 c2 && cont 128 191 c3
        then (Z.lor (Z.shiftl (Z.land b0 7) 18)
                (Z.lor (Z.shiftl (Z.land (byteZ c1) 63) 12)
                   (Z.lor (Z.shiftl (Z.land (byteZ c2) 63) 6)
                          (Z.land (byteZ c3) 63))), 4%nat)
        else (RuneError, 1%nat)
      | _ => (RuneError, 1%nat)
      end
    else (RuneError, 1%nat)
  end.

End utf8.

Module json.

(** [htmlSafeSet]: the ASCII bytes [encoding/json] copies unescaped when
    HTML escaping is on, as it is for [json.Marshal]. *)
Definition htmlSafe (c : ascii) : bool :=
  (32 <=? byteZ c) && (byteZ c <? 128)
  && negb (existsb (Z.eqb (byteZ c)) [34; 38; 60; 62; 92]).

(** The double quote. *)
Definition dquote : ascii := byteOf 34.

Definition hex (z : Z) : ascii :=
  if z <? 10 then byteOf (byteZ "0" + z) else byteOf (byteZ "a" + (z - 10)).

(** The [switch b] of [appendString] for an ASCII byte that is not safe. *)
Definition escapeByte (c : ascii) : string :=
  let b := byteZ c in
  if (b =? 92) || (b =? 34) then String "\" (String c "")
  else if b =? 8 then "\b"
  else if b =? 12 then "\f"
  else if b =? 10 then "\n"
  else if b =? 13 then "\r"
  else if b =? 9 then "\t"
  else "\u00" +:+ String (hex (Z.shiftr b 4)) (String (hex (Z.land b 15)) "").

(** The loop of [appendString] between the two quotes.  The Go loop
    advances by the width of the rune it has decoded; here [skip] counts
    the bytes of that rune still to be passed, which are copied when
    [copy] is set and dropped otherwise (the rune was written escaped). *)
Fixpoint appendLoop (copy : Datatypes.bool) (skip : nat) (src : string) : string :=
  match src with
  | EmptyString => EmptyString
  | String c rest =>
    match skip with
    | S k =>
      if copy then String c (appendLoop copy k rest) else appendLoop copy k rest
    | O =>
      if byteZ c <? 128 then
        if htmlSafe c then String c (appendLoop true 0 rest)
        else escapeByte c +:+ appendLoop true 0 rest
      else
        let '(r, size) := utf8.DecodeRuneInString src in
        if (r =? utf8.RuneError) && Nat.eqb size 1 then
          ("\u" +:+ "fffd") +:+ appendLoop true 0 rest
        else if (r =? 8232) || (r =? 8233) then
          "\u202" +:+ String (hex (Z.land r 15)) (appendLoop false (size - 1) rest)
        else String c (appendLoop true (size - 1) rest)
    end
  end.

(** A Go string as a JSON string literal. *)
Definition quote (s : string) : string :=
  String dquote (appendLoop true 0 s +:+ String dquote "").

(** An object from its members in order, each value already encoded:
    the compact form of [json.Marshal]. *)
Fixpoint members (sep colon : string) (fs : list (string * string)) : string :=
  match fs with
  | [] => ""
  | [(k, v)] => quote k +:+ colon +:+ v
  | (k, v) :: rest => quote k +:+ colon +:+ v +:+ sep +:+ members sep colon rest
  end.

Definition object (fs : list (string * string)) : string :=
  "{" +:+ members "," ":" fs +:+ "}".

Definition newline : string := String (byteOf 10) "".

(** The form of [json.MarshalIndent(v, "", indent)] for a flat object. *)
Definition objectIndent (indent : string) (fs : list (string * string)) : string :=
  match fs with
  | [] => "{}"
  | _ => "{" +:+ newline +:+ indent
         +:+ members ("," +:+ newline +:+ indent) ": " fs
         +:+ newline +:+ "}"
  end.

Definition bool (b : Datatypes.bool) : string := if b then "true" else "false".

(** *** Reading a JSON string (RFC 8259)

    The reader below is the grammar of the RFC, not code of
    [encoding/json]: it serves to state that an encoded message can be read
    back.  It reads [\u] escapes of code points below 128 only. *)

Definition unhex (c : ascii) : option Z :=
  if inRange "0" "9" c then Some (byteZ c - byteZ "0")
  else if inRange "a" "f" c then Some (byteZ c - byteZ "a" + 10)
  else if inRange "A" "F" c then Some (byteZ c - byteZ "A" + 10)
  else None.

(** The byte an escape letter stands for. *)
Definition unescape (c : ascii) : option Z :=
  let b := byteZ c in
  if (b =? 34) || (b =? 92) || (b =? 47) then Some b
  else if b =? 98 then Some 8
  else if b =? 102 then Some 12
  else if b =? 110 then Some 10
  else if b =? 114 then Some 13
  else if b =? 116 then Some 9
  else None.

Definition prepend (c : ascii) (r : option (string * string)) : option (string * string) :=
  match r with
  | Some (decoded, rest) => Some (String c decoded, rest)
  | None => None
  end.

(** The characters of a string literal after its opening quote: the string
    they denote and what follows the closing quote. *)
Fixpoint decodeString (s : string) : option (string * string) :=
  match s with
  | EmptyString => None
  | String c rest =>
    if byteZ c =? 34 then Some (EmptyString, rest)
    else if byteZ c =? 92 then
      match rest with
      | String e rest1 =>
        match unescape e with
        | Some b => prepend (byteOf b) (decodeString rest1)
        | None =>
          if byteZ e =? 117 then
            match rest1 with
            | String h1 (String h2 (String h3 (String h4 rest5))) =>
              match unhex h1, unhex h2, unhex h3, unhex h4 with
              | Some d1, Some d2, Some d3, Some d4 =>
                let code := ((d1 * 16 + d2) * 16 + d3) * 16 + d4 in
                if code <? 128 then prepend (byteOf code) (decodeString rest5)
                else None
              | _, _, _, _ => None
              end
            | _ => None
            end
          else None
        end
      | EmptyString => None
      end
    else if byteZ c <? 32 then None
    else prepend c (decodeString rest)
  end.

(** [s] without the prefix [p]. *)
Fixpoint stripPrefix (p s : string) : option string :=
  match p, s with
  | EmptyString, _ => Some s
  | String a p', String b s' => if Ascii.eqb a b then stripPrefix p' s' else None
  | String _ _, EmptyString => None
  end.

(** The member [error] of an object that has it for its one member. *)
Definition readError (doc : string) : option string :=
  match stripPrefix ("{" +:+ quote "error" +:+ ":" +:+ String dquote "") doc with
  | Some rest =>
    match decodeString rest with
    | Some (message, "}") => Some message
    | _ => None
    end
  | None => None
  end.

End json.

Module net.

(** [type IP []byte]; the [nil] slice is the empty list. *)
Definition IP := list Byte.byte.

End net.

(** Go's [error] values, by their text. *)
Definition error := string.

(** [err != nil]. *)
Definition notNil {A} (err : option A) : bool :=
  match err with Some _ => true | None => false end.

Module nethttp.

(** [http.Header]: canonical key to values. *)
Abbreviation Header := (gmap string (list string)).

(** [Header.Get]: the first value under the canonical form of [key]. *)
Definition Header_Get (h : Header) (key : string) : string :=
  match h !! textproto.CanonicalMIMEHeaderKey key with
  | Some (v :: _) => v
  | _ => ""
  end.

Record URL := { Path : string }.

Record Request := {
  Method : string;
  url : URL;
  Header_ : Header;
  RemoteAddr : string;
  Host : string
}.

(** [Request.UserAgent]. *)
Definition UserAgent (r : Request) : string := Header_Get (Header_ r) "User-Agent".

(** A call on the [http.ResponseWriter]: [w.Header().Set(key, value)],
    [w.WriteHeader(code)] and [w.Write(b)]. *)
Inductive Call :=
| SetHeader (key value : string)
| WriteHeader (code : Z)
| Write (b : string).

Definition StatusOK : Z := 200.
Definition StatusBadRequest : Z := 400.
Definition StatusNotFound : Z := 404.
Definition StatusInternalServerError : Z := 500.

(** What a recording [ResponseWriter] holds: the header map, the status
    line once written together with the headers sent with it, the body. *)
Record Recorder := {
  header : Header;
  sent : option (Z * Header);
  body : string
}.

Definition newRecorder : Recorder := {| header := ∅; sent := None; body := "" |}.

Definition writeHeader (code : Z) (w : Recorder) : Recorder :=
  match sent w with
  | Some _ => w
  | None => {| header := header w; sent := Some (code, header w); body := body w |}
  end.

(** One call on a recorder.  A second [WriteHeader] is ignored, the first
    [Write] sends status 200 if none was sent, and a header set after the
    status line is not sent. *)
Definition record (w : Recorder) (c : Call) : Recorder :=
  match c with
  | SetHeader k v =>
    {| header := <[textproto.CanonicalMIMEHeaderKey k := [v]]> (header w);
       sent := sent w; body := body w |}
  | WriteHeader code => writeHeader code w
  | Write b =>
    let w' := writeHeader StatusOK w in
    {| header := header w'; sent := sent w'; body := body w' +:+ b |}
  end.

Definition recordAll (cs : list Call) : Recorder := fold_left record cs newRecorder.

End nethttp.

Import nethttp.

(** ** The handler monad

    A handler either panics ([None]) or returns a value after a sequence of
    calls on its [ResponseWriter]. *)
Definition M (A : Type) : Type := option (list Call * A).

Definition ret {A} (a : A) : M A := Some ([], a).

Definition bind {A B} (m : M A) (k : A -> M B) : M B :=
  match m with
  | None => None
  | Some (cs, a) =>
    match k a with
    | None => None
    | Some (cs', b) => Some (cs ++ cs', b)
    end
  end.

Definition call (c : Call) : M unit := Some ([c], tt).
Definition panic {A} : M A := None.

Notation "x <- m ;; k" := (bind m (fun x => k))
  (at level 100, m at next level, right associativity).
Notation "m ;; k" := (bind m (fun _ => k))
  (at level 100, right associativity).

(** [fmt.Fprint(w, s)] and [fmt.Fprintln(w, s)] of one string: one [Write]. *)
Definition Fprint (s : string) : M unit := call (Write s).
Definition Fprintln (s : string) : M unit := call (Write (s +:+ json.newline)).

(** The two constants of http.go. *)
Definition jsonMediaType : string := "application/json".
Definition textMediaType : string := "text/plain".

(** ** error.go *)

(** Modelled from the spec: error.go (the type [appError], its constructors
    [badRequest], [internalServerError] and [notFound], and its methods
    [AsJSON], [WithMessage] and [IsJSON]) is not among the sources.  The
    specification gives a structured error a status code, a message and an
    optional content type; each constructor fixes the status code of its
    class; [AsJSON] marks the error with the JSON media type, [WithMessage]
    overrides the message, and the error is JSON when its content type is
    the JSON media type.  The message a constructor starts with is not
    specified: it is [initial]. *)
Record appError := {
  Error : option error;
  Message : string;
  Code : Z;
  ContentType : string
}.

Section Errors.

Variable initial : Z -> string.

(** Modelled from the spec: the common shape of the three constructors of
    error.go, a structured error of a fixed status code that wraps [err]
    and has no content type yet. *)
Definition newAppError (code : Z) (err : option error) : appError :=
  {| Error := err; Message := initial code; Code := code; ContentType := "" |}.

(** Modelled from the spec: [badRequest] of error.go, the request-error
    class. *)
Definition badRequest := newAppError StatusBadRequest.

(** Modelled from the spec: [internalServerError] of error.go, the
    internal-error class. *)
Definition internalServerError := newAppError StatusInternalServerError.

(** Modelled from the spec: [notFound] of error.go, the not-found class. *)
Definition notFound := newAppError StatusNotFound.

End Errors.

(** Modelled from the spec: [AsJSON] of error.go marks the error for JSON
    re-encoding. *)
Definition AsJSON (e : appError) : appError :=
  {| Error := Error e; Message := Message e; Code := Code e;
     ContentType := jsonMediaType |}.

(** Modelled from the spec: [WithMessage] of error.go overrides the
    message text. *)
Definition WithMessage (message : string) (e : appError) : appError :=
  {| Error := Error e; Message := message; Code := Code e;
     ContentType := ContentType e |}.

(** Modelled from the spec: [IsJSON] of error.go, whether the error carries
    the JSON content-type marker. *)
Definition IsJSON (e : appError) : bool := String.eqb (ContentType e) jsonMediaType.

(** ** The packages http.go imports *)

Module database.

(** [database.Country], as far as http.go reads it. *)
Record Country := { Name : string; ISO : string }.

(** [database.Client], the interface http.go calls: a lookup returns its
    value together with its error. *)
Record Client := {
  Country_ : net.IP -> Country * option error;
  City : net.IP -> string * option error;
  IsEmpty : bool
}.

End database.

Module useragent.

(** [useragent.UserAgent], as far as http.go reads it. *)
Record UserAgent := { Product : string }.

End useragent.

Module Response.

Record t := {
  IP : net.IP;
  IPDecimal : Z;
  Country : string;
  CountryISO : string;
  City : string;
  Hostname : string
}.

(** [Response{}]. *)
Definition zero : t :=
  {| IP := []; IPDecimal := 0; Country := ""; CountryISO := ""; City := "";
     Hostname := "" |}.

End Response.

Module PortResponse.

Record t := {
  IP : net.IP;
  Port : Z;
  Reachable : bool
}.

End PortResponse.

(** The value [DefaultHandler] hands to its template. *)
Record TemplateData := {
  data_Response : Response.t;
  data_Host : string;
  data_JSON : string;
  data_Port : bool
}.

(** What the file calls and neither it nor the specification defines: the
    address functions of package [net], [iputil.ToDecimal],
    [useragent.Parse] and package [html/template].  A parsed template is a
    value of [Template]; executing one yields the chunks it writes and its
    error. *)
Record Platform := {
  ParseIP : string -> option net.IP;
  SplitHostPort : string -> string * string * option error;
  IP_String : net.IP -> string;
  ToDecimal : net.IP -> Z;
  Parse : string -> useragent.UserAgent;
  Template_ : Type;
  ParseFiles : string -> Template_ + error;
  Execute : Template_ -> TemplateData -> list string * option error
}.

Record Server := {
  Template : string;
  IPHeader : string;
  LookupAddr : option (net.IP -> string * option error);
  LookupPort : option (net.IP -> Z -> option error);
  db : database.Client
}.

Definition New (db : database.Client) : Server :=
  {| Template := ""; IPHeader := ""; LookupAddr := None; LookupPort := None;
     db := db |}.

(** ** http.go *)

Section Http.

Variable P : Platform.
Variable initial : Z -> string.

(** [encoding/json] on the values of this file.  [net.IP] is a
    [TextMarshaler]: the empty slice gives the empty text, a slice of 4 or
    16 bytes its [String()], any other length an error. *)
Definition IP_MarshalText (ip : net.IP) : string * option error :=
  if Nat.eqb (length ip) 0 then ("", None)
  else if Nat.eqb (length ip) 4 || Nat.eqb (length ip) 16
       then (IP_String P ip, None)
       else ("", Some "invalid IP address").

(** A member tagged [omitempty]: left out when the string is empty. *)
Definition omitempty (key value : string) : list (string * string) :=
  if String.eqb value "" then [] else [(key, json.quote value)].

Definition Response_members (ip : string) (v : Response.t) : list (string * string) :=
  [("ip", json.quote ip); ("ip_decimal", strconv.FormatUint (Response.IPDecimal v))]
  ++ omitempty "country" (Response.Country v)
  ++ omitempty "country_iso" (Response.CountryISO v)
  ++ omitempty "city" (Response.City v)
  ++ omitempty "hostname" (Response.Hostname v).

(** [json.Marshal(response)]. *)
Definition Marshal_Response (v : Response.t) : string * option error :=
  match IP_MarshalText (Response.IP v) with
  | (_, Some err) => ("", Some err)
  | (ip, None) => (json.object (Response_members ip v), None)
  end.

(** [json.MarshalIndent(response, "", "  ")]. *)
Definition MarshalIndent_Response (v : Response.t) : string * option error :=
  match IP_MarshalText (Response.IP v) with
  | (_, Some err) => ("", Some err)
  | (ip, None) => (json.objectIndent "  " (Response_members ip v), None)
  end.

(** [json.Marshal(response)] for a [PortResponse]. *)
Definition Marshal_PortResponse (v : PortResponse.t) : string * option error :=
  match IP_MarshalText (PortResponse.IP v) with
  | (_, Some err) => ("", Some err)
  | (ip, None) =>
    (json.object [("ip", json.quote ip);
                  ("port", strconv.FormatUint (PortResponse.Port v));
                  ("reachable", json.bool (PortResponse.Reachable v))], None)
  end.

(** [json.Marshal] of [struct{ Error string `json:"error"` }]: it has no
    error. *)
Definition Marshal_Error (message : string) : string :=
  json.object [("error", json.quote message)].

Definition ipFromRequest (header : string) (r : Request) : net.IP * option error :=
  let remoteIP := Header_Get (Header_ r) header in
  let '(remoteIP, failed) :=
    if String.eqb remoteIP "" then
      let '(host, _, err) := SplitHostPort P (RemoteAddr r) in
      match err with
      | Some err => ("", Some err)
      | None => (host, None)
      end
    else (remoteIP, None) in
  match failed with
  | Some err => ([], Some err)
  | None =>
    match ParseIP P remoteIP with
    | None => ([], Some ("could not parse IP: " +:+ remoteIP))
    | Some ip => (ip, None)
    end
  end.

Definition newResponse (s : Server) (r : Request) : Response.t * option error :=
  let '(ip, err) := ipFromRequest (IPHeader s) r in
  match err with
  | Some err => (Response.zero, Some err)
  | None =>
    let ipDecimal := ToDecimal P ip in
    let '(country, _) := database.Country_ (db s) ip in
    let '(city, _) := database.City (db s) ip in
    let hostname :=
      match LookupAddr s with
      | Some lookup => fst (lookup ip)
      | None => ""
      end in
    ({| Response.IP := ip;
        Response.IPDecimal := ipDecimal;
        Response.Country := database.Name country;
        Response.CountryISO := database.ISO country;
        Response.City := city;
        Response.Hostname := hostname |}, None)
  end.

(** [PortResponse{Port: port}]. *)
Definition portOnly (port : Z) : PortResponse.t :=
  {| PortResponse.IP := []; PortResponse.Port := port;
     PortResponse.Reachable := false |}.

(** Calling [s.LookupPort] when it is [nil] panics: the result is in [M]
    (the function itself makes no call on the writer). *)
Definition newPortResponse (s : Server) (r : Request) : M (PortResponse.t * option error) :=
  let lastElement := filepath.Base (Path (url r)) in
  let '(port, err) := strconv.ParseUint10 lastElement 16 in
  if notNil err || (port <? 1) || (port >? 65355) then
    ret (portOnly port, Some ("invalid port: " +:+ strconv.FormatUint port))
  else
    let '(ip, err) := ipFromRequest (IPHeader s) r in
    match err with
    | Some err => ret (portOnly port, Some err)
    | None =>
      match LookupPort s with
      | None => panic
      | Some lookup =>
        let err := lookup ip port in
        ret ({| PortResponse.IP := ip;
                PortResponse.Port := port;
                PortResponse.Reachable := negb (notNil err) |}, None)
      end
    end.

(** [type appHandler func(http.ResponseWriter, *http.Request) *appError]:
    the calls on the writer are the effect, [None] is the [nil] error. *)
Definition appHandler : Type := Request -> M (option appError).

Definition CLIHandler (s : Server) : appHandler := fun r =>
  let '(ip, err) := ipFromRequest (IPHeader s) r in
  match err with
  | Some err => ret (Some (internalServerError initial (Some err)))
  | None => Fprintln (IP_String P ip) ;; ret None
  end.

Definition CLICountryHandler (s : Server) : appHandler := fun r =>
  let '(response, err) := newResponse s r in
  match err with
  | Some err => ret (Some (internalServerError initial (Some err)))
  | None => Fprintln (Response.Country response) ;; ret None
  end.

Definition CLICountryISOHandler (s : Server) : appHandler := fun r =>
  let '(response, err) := newResponse s r in
  match err with
  | Some err => ret (Some (internalServerError initial (Some err)))
  | None => Fprintln (Response.CountryISO response) ;; ret None
  end.

Definition CLICityHandler (s : Server) : appHandler := fun r =>
  let '(response, err) := newResponse s r in
  match err with
  | Some err => ret (Some (internalServerError initial (Some err)))
  | None => Fprintln (Response.City response) ;; ret None
  end.

Definition JSONHandler (s : Server) : appHandler := fun r =>
  let '(response, err) := newResponse s r in
  match err with
  | Some err => ret (Some (AsJSON (internalServerError initial (Some err))))
  | None =>
    let '(b, err) := Marshal_Response response in
    match err with
    | Some err => ret (Some (AsJSON (internalServerError initial (Some err))))
    | None =>
      call (SetHeader "Content-Type" jsonMediaType) ;;
      call (Write b) ;;
      ret None
    end
  end.

Definition PortHandler (s : Server) : appHandler := fun r =>
  result <- newPortResponse s r ;;
  let '(response, err) := result in
  match err with
  | Some err =>
    ret (Some (AsJSON (WithMessage
                 ("Invalid port: " +:+ strconv.FormatUint (PortResponse.Port response))
                 (badRequest initial (Some err)))))
  | None =>
    let '(b, err) := Marshal_PortResponse response in
    match err with
    | Some err => ret (Some (AsJSON (internalServerError initial (Some err))))
    | None =>
      call (SetHeader "Content-Type" jsonMediaType) ;;
      call (Write b) ;;
      ret None
    end
  end.

(** [t.Execute(w, &data)]: the template writes its chunks in order. *)
Fixpoint writeAll (chunks : list string) : M unit :=
  match chunks with
  | [] => ret tt
  | chunk :: rest => call (Write chunk) ;; writeAll rest
  end.

Definition DefaultHandler (s : Server) : appHandler := fun r =>
  let '(response, err) := newResponse s r in
  match err with
  | Some err => ret (Some (internalServerError initial (Some err)))
  | None =>
    match ParseFiles P (Template s) with
    | inr err => ret (Some (internalServerError initial (Some err)))
    | inl t =>
      let '(json, err) := MarshalIndent_Response response in
      match err with
      | Some err => ret (Some (internalServerError initial (Some err)))
      | None =>
        let data :=
          {| data_Response := response;
             data_Host := Host r;
             data_JSON := json;
             data_Port := notNil (LookupPort s) |} in
        let '(chunks, err) := Execute P t data in
        writeAll chunks ;;
        match err with
        | Some err => ret (Some (internalServerError initial (Some err)))
        | None => ret None
        end
      end
    end
  end.

Definition NotFoundHandler : appHandler := fun r =>
  let err := WithMessage "404 page not found" (notFound initial None) in
  let err :=
    if String.eqb (Header_Get (Header_ r) "accept") jsonMediaType
    then AsJSON err else err in
  ret (Some err).

Definition cliMatcher (r : Request) : bool :=
  let ua := Parse P (UserAgent r) in
  existsb (String.eqb (useragent.Product ua))
    ["curl"; "HTTPie"; "Wget"; "fetch libfetch"; "Go"; "Go-http-client"; "ddclient"].

(** [appHandler.ServeHTTP].  [json.Marshal] of a struct of one string has
    no error, so the [panic(err)] is not reached. *)
Definition ServeHTTP (fn : appHandler) (r : Request) : M unit :=
  e <- fn r ;;
  match e with
  | Some e =>
    let e :=
      if IsJSON e
      then {| Error := Error e; Message := Marshal_Error (Message e);
              Code := Code e; ContentType := ContentType e |}
      else e in
    (if negb (String.eqb (ContentType e) "")
     then call (SetHeader "Content-Type" (ContentType e))
     else ret tt) ;;
    call (WriteHeader (Code e)) ;;
    Fprint (Message e)
  | None => ret tt
  end.

(** *** router.go *)

(** Modelled from the spec: router.go (the router [NewRouter] returns, its
    methods [Route], [RoutePrefix] and [Handler], and the methods [Header]
    and [MatcherFunc] of a route) is not among the sources.  The
    specification makes a route a method, a path rule (exact or prefix),
    header-equality matchers, an optional predicate and a handler; it
    matches a request when all of these hold.  A router is the sequence of
    its routes in registration order; it dispatches to the first route
    that matches and to the not-found handler when none does.  [Route]
    returns the route it has appended, and [Header] and [MatcherFunc]
    change that route where it stands in the router: the route is named
    here by its index. *)
Inductive pathRule :=
| Exact (path : string)
| Prefix (path : string).

(** Modelled from the spec: the route of router.go. *)
Record route := {
  method : string;
  rule : pathRule;
  headerMatchers : list (string * string);
  predicate : option (Request -> bool);
  handler : appHandler
}.

(** Modelled from the spec: the router of router.go, its routes in
    registration order. *)
Definition router : Type := list route.

(** Modelled from the spec: [NewRouter] of router.go, a router without
    routes. *)
Definition NewRouter : router := [].

(** Modelled from the spec: registration in router.go appends the route;
    the index is the name of the route in the router. *)
Definition register (ro : route) (rt : router) : router * nat :=
  (rt ++ [ro], length rt).

(** Modelled from the spec: [Route] of router.go registers a route for an
    exact path. *)
Definition Route (method path : string) (h : appHandler) (rt : router) : router * nat :=
  register {| method := method; rule := Exact path; headerMatchers := [];
              predicate := None; handler := h |} rt.

(** Modelled from the spec: [RoutePrefix] of router.go registers a route
    for a path prefix. *)
Definition RoutePrefix (method path : string) (h : appHandler) (rt : router) : router * nat :=
  register {| method := method; rule := Prefix path; headerMatchers := [];
              predicate := None; handler := h |} rt.

(** Modelled from the spec: [Header] of router.go adds a header-equality
    matcher to the route. *)
Definition Header (name value : string) (ref : nat) (rt : router) : router :=
  alter (fun ro =>
           {| method := method ro; rule := rule ro;
              headerMatchers := headerMatchers ro ++ [(name, value)];
              predicate := predicate ro; handler := handler ro |}) ref rt.

(** Modelled from the spec: [MatcherFunc] of router.go sets the predicate
    of the route. *)
Definition MatcherFunc (f : Request -> bool) (ref : nat) (rt : router) : router :=
  alter (fun ro =>
           {| method := method ro; rule := rule ro;
              headerMatchers := headerMatchers ro;
              predicate := Some f; handler := handler ro |}) ref rt.

(** Modelled from the spec: the path rule of a route in router.go, equality
    or literal prefix. *)
Definition matchPath (rule : pathRule) (path : string) : bool :=
  match rule with
  | Exact p => String.eqb p path
  | Prefix p => String.prefix p path
  end.

(** Modelled from the spec: a route of router.go matches when the method,
    the path rule, every header matcher and the predicate, if any, do. *)
Definition matches (ro : route) (r : Request) : bool :=
  String.eqb (method ro) (Method r)
  && matchPath (rule ro) (Path (url r))
  && forallb (fun '(name, value) => String.eqb (Header_Get (Header_ r) name) value)
             (headerMatchers ro)
  && match predicate ro with
     | Some f => f r
     | None => true
     end.

(** Modelled from the spec: dispatch in router.go, the handler of the
    first route that matches, else the not-found handler. *)
Fixpoint Dispatch (rt : router) (r : Request) : appHandler :=
  match rt with
  | [] => NotFoundHandler
  | ro :: rest => if matches ro r then handler ro else Dispatch rest r
  end.

(** Modelled from the spec: [Handler] of router.go, the [http.Handler] of a
    router: dispatch under the adapter. *)
Definition Router_Handler (rt : router) (r : Request) : M unit :=
  ServeHTTP (Dispatch rt r) r.

(** *** Server.Handler *)

(** The router [r] of [Server.Handler] when it reaches its [return]. *)
Definition routes (s : Server) : router :=
  let r := NewRouter in
  (* JSON *)
  let '(r, ro) := Route "GET" "/" (JSONHandler s) r in
  let r := Header "Accept" jsonMediaType ro r in
  let '(r, _) := Route "GET" "/json" (JSONHandler s) r in
  (* CLI *)
  let '(r, ro) := Route "GET" "/" (CLIHandler s) r in
  let r := MatcherFunc cliMatcher ro r in
  let '(r, ro) := Route "GET" "/" (CLIHandler s) r in
  let r := Header "Accept" textMediaType ro r in
  let '(r, _) := Route "GET" "/ip" (CLIHandler s) r in
  let r :=
    if negb (database.IsEmpty (db s)) then
      let '(r, _) := Route "GET" "/country" (CLICountryHandler s) r in
      let '(r, _) := Route "GET" "/country-iso" (CLICountryISOHandler s) r in
      let '(r, _) := Route "GET" "/city" (CLICityHandler s) r in
      r
    else r in
  (* Browser *)
  let '(r, _) := Route "GET" "/" (DefaultHandler s) r in
  (* Port testing *)
  let r :=
    if notNil (LookupPort s) then
      let '(r, _) := RoutePrefix "GET" "/port/" (PortHandler s) r in
      r
    else r in
  r.

Definition Handler (s : Server) : Request -> M unit := Router_Handler (routes s).

End Http.

(** ** A test platform

    Stand-ins for the library functions and collaborators, in the manner of
    the stubs a test of the server installs: addresses are dotted-quad IPv4
    only, a remote address is [host:port], and the product of a user agent
    is the text before its first slash. *)
Module Fixture.

(** [s] cut at each [sep]. *)
Fixpoint split (sep : ascii) (s : string) : list string :=
  match s with
  | EmptyString => [EmptyString]
  | String c rest =>
    if Ascii.eqb c sep then EmptyString :: split sep rest
    else match split sep rest with
         | first :: others => String c first :: others
         | [] => [String c EmptyString]
         end
  end.

Definition octet (s : string) : option Z :=
  match strconv.ParseUint10 s 8 with
  | (n, None) => Some n
  | _ => None
  end.

Definition v4 (a b c d : Z) : net.IP :=
  repeat Byte.x00 10 ++ [Byte.xff; Byte.xff]
  ++ map (fun z => byte_of_ascii (byteOf z)) [a; b; c; d].

Definition parseIPv4 (s : string) : option net.IP :=
  match map octet (split "." s) with
  | [Some a; Some b; Some c; Some d] => Some (v4 a b c d)
  | _ => None
  end.

Definition splitHostPort (hostport : string) : string * string * option error :=
  match split ":" hostport with
  | [host; port] => (host, port, None)
  | _ => ("", "", Some "missing port in address")
  end.

Definition byteN (b : Byte.byte) : Z := byteZ (ascii_of_byte b).

Definition ipString (ip : net.IP) : string :=
  match skipn 12 ip with
  | [a; b; c; d] =>
    strconv.FormatUint (byteN a) +:+ "." +:+ strconv.FormatUint (byteN b) +:+ "."
    +:+ strconv.FormatUint (byteN c) +:+ "." +:+ strconv.FormatUint (byteN d)
  | _ => "?"
  end.

Definition toDecimal (ip : net.IP) : Z :=
  fold_left (fun acc b => acc * 256 + byteN b) (skipn 12 ip) 0.

Definition parseProduct (s : string) : useragent.UserAgent :=
  {| useragent.Product := hd "" (split "/" s) |}.

Definition platform : Platform :=
  {| ParseIP := parseIPv4;
     SplitHostPort := splitHostPort;
     IP_String := ipString;
     ToDecimal := toDecimal;
     Parse := parseProduct;
     Template_ := unit;
     ParseFiles := fun _ => inl tt;
     Execute := fun _ data => ([data_Host data; data_JSON data], None) |}.

Definition initial (code : Z) : string :=
  if code =? StatusInternalServerError then "Internal server error" else "".

(** A database that knows one address, and the two lookups. *)
Definition testDb : database.Client :=
  {| database.Country_ := fun ip =>
       if String.eqb (ipString ip) "127.0.0.1"
       then ({| database.Name := "Elbonia"; database.ISO := "EB" |}, None)
       else ({| database.Name := ""; database.ISO := "" |}, Some "not found");
     database.City := fun ip =>
       if String.eqb (ipString ip) "127.0.0.1"
       then ("Bornyasherk", None) else ("", Some "not found");
     database.IsEmpty := false |}.

Definition lookupAddr (ip : net.IP) : string * option error := ("localhost", None).

(** Only port 80 is open. *)
Definition lookupPort (ip : net.IP) (port : Z) : option error :=
  if port =? 80 then None else Some "connection refused".

Definition server : Server :=
  {| Template := "index.html"; IPHeader := "X-Real-IP";
     LookupAddr := Some lookupAddr; LookupPort := Some lookupPort;
     db := testDb |}.

(** A GET request from [remote] with the given headers. *)
Definition get (path remote : string) (hs : list (string * string)) : Request :=
  {| Method := "GET"; url := {| Path := path |};
     Header_ := list_to_map
                  (map (fun '(k, v) => (textproto.CanonicalMIMEHeaderKey k, [v])) hs);
     RemoteAddr := remote; Host := "ifconfig.co" |}.

End Fixture.


(** ** Vocabulary of the properties *)

Definition isDigit (c : ascii) : bool := inRange "0" "9" c.

Fixpoint allDigits (s : string) : bool :=
  match s with
  | EmptyString => true
  | String c rest => isDigit c && allDigits rest
  end.

(** The number read after [n] when the decimal digits of [s] follow. *)
Fixpoint valueFrom (n : Z) (s : string) : Z :=
  match s with
  | EmptyString => n
  | String c rest => valueFrom (n * 10 + (byteZ c - 48)) rest
  end.

(** The number a string of decimal digits denotes. *)
Definition decimalValue (s : string) : Z := valueFrom 0 s.

(** The digits a string starts with. *)
Fixpoint leadingDigits (s : string) : string :=
  match s with
  | EmptyString => EmptyString
  | String c rest => if isDigit c then String c (leadingDigits rest) else EmptyString
  end.

(** Every byte of [s] is ASCII. *)
Fixpoint isASCII (s : string) : Datatypes.bool :=
  match s with
  | EmptyString => true
  | String c rest => (byteZ c <? 128) && isASCII rest
  end.

(** What [appendString] writes for one ASCII byte. *)
Definition encodedByte (c : ascii) : string :=
  if json.htmlSafe c then String c "" else json.escapeByte c.

(** A path segment that is a decimal number. *)
Definition numeric (s : string) : bool := negb (String.eqb s "") && allDigits s.

(** The port [PortHandler] reports for a rejected segment: the value
    [ParseUint] returned with its error, which is 0 for a syntax error and
    the 16-bit maximum for a range error. *)
Definition reported (seg : string) : Z :=
  if numeric seg then Z.min (decimalValue seg) 65535
  else if decimalValue (leadingDigits seg) <=? 65535 then 0 else 65535.

(** [check] holds of the [count] numbers from [p] on. *)
Fixpoint allFrom (check : Z -> bool) (count : nat) (p : Z) : bool :=
  match count with
  | O => true
  | S count' => check p && allFrom check count' (p + 1)
  end.


(** The calls of the adapter for the error [e] a handler returned. *)
Definition adapterCalls (e : appError) : list Call :=
  (if String.eqb (ContentType e) "" then []
   else [SetHeader "Content-Type" (ContentType e)])
  ++ [WriteHeader (Code e);
      Write (if IsJSON e then Marshal_Error (Message e) else Message e)].

(** The source of the caller's address as the specification words it: the
    trusted header if present, else the host part of the transport-level
    remote address. *)
Definition addressSource (P : Platform) (header : string) (r : Request) : option string :=
  let value := Header_Get (Header_ r) header in
  if String.eqb value "" then
    match SplitHostPort P (RemoteAddr r) with
    | (host, _, None) => Some host
    | (_, _, Some _) => None
    end
  else Some value.

(** The caller's address as the specification words it: what the source
    yields, parsed. *)
Definition callerAddress (P : Platform) (header : string) (r : Request) : option net.IP :=
  match addressSource P header r with
  | Some text => ParseIP P text
  | None => None
  end.

(** The server with another port probe. *)
Definition withLookupPort (lookup : net.IP -> Z -> option error) (s : Server) : Server :=
  {| Template := Template s; IPHeader := IPHeader s; LookupAddr := LookupAddr s;
     LookupPort := Some lookup; db := db s |}.


(** The request with another path. *)
Definition withPath (path : string) (r : Request) : Request :=
  {| Method := Method r; url := {| Path := path |}; Header_ := Header_ r;
     RemoteAddr := RemoteAddr r; Host := Host r |}.

(** [n] slashes. *)
Fixpoint slashes (n : nat) : string :=
  match n with
  | O => EmptyString
  | S n' => String "/" (slashes n')
  end.

(** No byte of [s] is a path separator. *)
Fixpoint noSlash (s : string) : Datatypes.bool :=
  match s with
  | EmptyString => true
  | String c rest => negb (filepath.isPathSeparator c) && noSlash rest
  end.

(** What a recorder nothing was written to holds after [fn] has served [r]
    under the adapter; [None] when the handler panics. *)
Definition served (fn : appHandler) (r : Request) : option Recorder :=
  match ServeHTTP fn r with
  | Some (cs, _) => Some (recordAll cs)
  | None => None
  end.

(** The status code a recorder has sent, if any. *)
Definition status (w : Recorder) : option Z :=
  match sent w with
  | Some (code, _) => Some code
  | None => None
  end.

(** The values of a header a recorder has sent with its status line. *)
Definition sentHeader (w : Recorder) (key : string) : option (list string) :=
  match sent w with
  | Some (_, h) => h !! key
  | None => None
  end.

(** The chunks of a template in one string. *)
Fixpoint joined (chunks : list string) : string :=
  match chunks with
  | [] => EmptyString
  | chunk :: rest => chunk +:+ joined rest
  end.

(** A handler that writes one line and returns [nil], or writes nothing and
    returns an error. *)
Definition lineOrError (h : appHandler) (r : Request) : Prop :=
  (exists line, h r = Some ([Write (line +:+ json.newline)], None))
  \/ (exists e, h r = Some ([], Some e)).

(** A handler that sets the JSON content type, writes a body and returns
    [nil], or writes nothing and returns an error marked as JSON. *)
Definition jsonOrError (h : appHandler) (r : Request) : Prop :=
  (exists b, h r = Some ([SetHeader "Content-Type" "application/json"; Write b], None))
  \/ (exists e, h r = Some ([], Some e) /\ IsJSON e = true).

(** Everything a sequence of calls writes to the body. *)
Fixpoint written (cs : list Call) : string :=
  match cs with
  | [] => EmptyString
  | Write b :: rest => b +:+ written rest
  | _ :: rest => written rest
  end.

(** The test platform with a template that fails after its first chunk. *)
Definition brokenTemplate : Platform :=
  {| ParseIP := Fixture.parseIPv4;
     SplitHostPort := Fixture.splitHostPort;
     IP_String := Fixture.ipString;
     ToDecimal := Fixture.toDecimal;
     Parse := Fixture.parseProduct;
     Template_ := unit;
     ParseFiles := fun _ => inl tt;
     Execute := fun _ data => (["<html>" +:+ data_Host data], Some "template: no such field") |}.

(** * Properties *)

(** ** strconv.ParseUint on a path segment *)

Lemma digitOf_digit c :
  isDigit c = true ->
  strconv.digitOf c = Some (byteZ c - 48) /\ 0 <= byteZ c - 48 <= 9.
Proof.
  unfold isDigit, strconv.digitOf. intros H. rewrite H. split; [reflexivity|].
  unfold inRange in H. apply andb_true_iff in H as [H1 H2].
  apply Z.leb_le in H1, H2.
  change (byteZ "0") with 48 in H1. change (byteZ "9") with 57 in H2. lia.
Qed.

Lemma digitOf_other c :
  isDigit c = false ->
  match strconv.digitOf c with
  | None => True
  | Some d => 10 <= d
  end.
Proof.
  unfold isDigit, strconv.digitOf. intros H. rewrite H.
  destruct (inRange "a" "z" (strconv.lower c)) eqn:E; [|exact I].
  unfold inRange in E. apply andb_true_iff in E as [E1 _].
  apply Z.leb_le in E1. lia.
Qed.

Lemma valueFrom_ge s : forall n,
  allDigits s = true -> 0 <= n -> n <= valueFrom n s.
Proof.
  induction s as [|c s IH]; intros n Hd Hn; simpl in *; [lia|].
  apply andb_true_iff in Hd as [Hc Hs].
  destruct (digitOf_digit c Hc) as [_ Hr].
  specialize (IH (n * 10 + (byteZ c - 48)) Hs). lia.
Qed.

Lemma allDigits_leading s : allDigits (leadingDigits s) = true.
Proof.
  induction s as [|c s IH]; simpl; [reflexivity|].
  destruct (isDigit c) eqn:E; simpl; [|reflexivity].
  now rewrite E.
Qed.

Lemma leadingDigits_all s : allDigits s = true -> leadingDigits s = s.
Proof.
  induction s as [|c s IH]; simpl; [reflexivity|]. intros H.
  apply andb_true_iff in H as [Hc Hs]. rewrite Hc. now rewrite IH.
Qed.

(** One turn of the digit loop on a digit, below the 16-bit maximum. *)
Lemma parseLoop_step c rest n :
  isDigit c = true -> 0 <= n <= 65535 ->
  strconv.parseLoop 10 (strconv.maxUint64 / 10 + 1) 65535 (String c rest) n =
  if n * 10 + (byteZ c - 48) >? 65535 then (65535, Some strconv.ErrRange)
  else strconv.parseLoop 10 (strconv.maxUint64 / 10 + 1) 65535 rest
         (n * 10 + (byteZ c - 48)).
Proof.
  intros Hc Hn. simpl.
  destruct (digitOf_digit c Hc) as [-> Hd].
  change (strconv.maxUint64 / 10 + 1) with 1844674407370955162.
  destruct (byteZ c - 48 >=? 10) eqn:E1; [lia|].
  destruct (n >=? 1844674407370955162) eqn:E2; [lia|].
  unfold strconv.wrap64. change (2 ^ 64) with 18446744073709551616.
  rewrite (Z.mod_small (n * 10)) by lia.
  rewrite (Z.mod_small (n * 10 + _)) by lia.
  destruct (n * 10 + (byteZ c - 48) <? n * 10) eqn:E3; [lia|].
  reflexivity.
Qed.

(** The loop on a string of digits: the number they denote, or a range
    error with the maximum once the number exceeds it. *)
Lemma parseLoop_digits s : forall n,
  allDigits s = true -> 0 <= n <= 65535 ->
  strconv.parseLoop 10 (strconv.maxUint64 / 10 + 1) 65535 s n =
  if valueFrom n s <=? 65535 then (valueFrom n s, None)
  else (65535, Some strconv.ErrRange).
Proof.
  induction s as [|c s IH]; intros n Hd Hn.
  - simpl. destruct (n <=? 65535) eqn:E; [reflexivity|lia].
  - simpl in Hd. apply andb_true_iff in Hd as [Hc Hs].
    rewrite parseLoop_step by assumption.
    destruct (digitOf_digit c Hc) as [_ Hr]. simpl valueFrom.
    destruct (n * 10 + (byteZ c - 48) >? 65535) eqn:E.
    + pose proof (valueFrom_ge s (n * 10 + (byteZ c - 48)) Hs).
      destruct (valueFrom _ s <=? 65535) eqn:E'; [lia|reflexivity].
    + apply IH; [assumption|lia].
Qed.

(** The loop on a string with a byte that is no digit: a syntax error with
    value 0, unless the digits before that byte already exceed the
    maximum. *)
Lemma parseLoop_nondigit s : forall n,
  allDigits s = false -> 0 <= n <= 65535 ->
  strconv.parseLoop 10 (strconv.maxUint64 / 10 + 1) 65535 s n =
  if valueFrom n (leadingDigits s) <=? 65535 then (0, Some strconv.ErrSyntax)
  else (65535, Some strconv.ErrRange).
Proof.
  induction s as [|c s IH]; intros n Hd Hn; [discriminate|].
  simpl in Hd. simpl leadingDigits. destruct (isDigit c) eqn:Hc.
  - simpl in Hd. rewrite parseLoop_step by assumption.
    destruct (digitOf_digit c Hc) as [_ Hr]. simpl valueFrom.
    destruct (n * 10 + (byteZ c - 48) >? 65535) eqn:E.
    + pose proof (valueFrom_ge (leadingDigits s) (n * 10 + (byteZ c - 48))
                    (allDigits_leading s)).
      destruct (valueFrom _ _ <=? 65535) eqn:E'; [lia|reflexivity].
    + apply IH; [assumption|lia].
  - simpl valueFrom. destruct (n <=? 65535) eqn:E; [|lia].
    pose proof (digitOf_other c Hc) as Ho. simpl.
    destruct (strconv.digitOf c) as [d|]; [|reflexivity].
    destruct (d >=? 10) eqn:E1; [reflexivity|lia].
Qed.

(** [ParseUint] with base 10 and 16 bits on a decimal number. *)
Lemma ParseUint10_numeric s :
  numeric s = true ->
  strconv.ParseUint10 s 16 =
  if decimalValue s <=? 65535 then (decimalValue s, None)
  else (65535, Some strconv.ErrRange).
Proof.
  unfold numeric, strconv.ParseUint10. intros H.
  apply andb_true_iff in H as [Hne Hd]. apply negb_true_iff in Hne.
  rewrite Hne. change (2 ^ 16 - 1) with 65535.
  apply parseLoop_digits; [assumption|lia].
Qed.

(** [ParseUint] with base 10 and 16 bits on anything else. *)
Lemma ParseUint10_not_numeric s :
  numeric s = false ->
  strconv.ParseUint10 s 16 =
  if decimalValue (leadingDigits s) <=? 65535 then (0, Some strconv.ErrSyntax)
  else (65535, Some strconv.ErrRange).
Proof.
  unfold numeric, strconv.ParseUint10. intros H.
  destruct (String.eqb s "") eqn:Hne.
  - apply String.eqb_eq in Hne. subst s. reflexivity.
  - simpl in H. change (2 ^ 16 - 1) with 65535.
    apply parseLoop_nondigit; [assumption|lia].
Qed.

Lemma allFrom_spec check count : forall p q,
  allFrom check count p = true -> p <= q < p + Z.of_nat count -> check q = true.
Proof.
  induction count as [|count IH]; intros p q Hall Hq; [lia|].
  simpl in Hall. apply andb_true_iff in Hall as [Hp Hrest].
  destruct (Z.eq_dec p q) as [->|Hne]; [exact Hp|].
  apply (IH (p + 1)); [exact Hrest|lia].
Qed.

(** Decimal printing and reading agree on every 16-bit number, so a port
    written in decimal is a numeric segment of that value. *)
Lemma FormatUint_decimalValue (p : Z) :
  0 <= p <= 65535 ->
  numeric (strconv.FormatUint p) = true /\ decimalValue (strconv.FormatUint p) = p.
Proof.
  intros Hp.
  assert (Hall : allFrom (fun q => numeric (strconv.FormatUint q)
                                   && (decimalValue (strconv.FormatUint q) =? q))
                         (Z.to_nat 65536) 0 = true) by (vm_compute; reflexivity).
  apply (allFrom_spec _ _ 0 p) in Hall; [|lia].
  apply andb_true_iff in Hall as [H1 H2].
  apply Z.eqb_eq in H2. auto.
Qed.

(** ** JSON strings *)

Lemma append_assoc (a b c : string) : (a +:+ b) +:+ c = a +:+ (b +:+ c).
Proof.
  induction a as [|x a IH]; [reflexivity|].
  change (String x ((a +:+ b) +:+ c) = String x (a +:+ (b +:+ c))).
  now rewrite IH.
Qed.

Lemma appendLoop_ascii (c : ascii) (s : string) :
  (byteZ c <? 128) = true ->
  json.appendLoop true 0 (String c s) = encodedByte c +:+ json.appendLoop true 0 s.
Proof.
  intros Hc. unfold encodedByte. cbn [json.appendLoop]. rewrite Hc.
  destruct (json.htmlSafe c); reflexivity.
Qed.

(** The reader takes the encoding of an ASCII byte for that byte. *)
Lemma decodeString_encodedByte (c : ascii) (rest : string) :
  (byteZ c <? 128) = true ->
  json.decodeString (encodedByte c +:+ rest) = json.prepend c (json.decodeString rest).
Proof.
  destruct c as [b0 b1 b2 b3 b4 b5 b6 b7]. intros Hc.
  destruct b7; [destruct b0, b1, b2, b3, b4, b5, b6; vm_compute in Hc; discriminate|].
  clear Hc. destruct b0, b1, b2, b3, b4, b5, b6; reflexivity.
Qed.

(** An ASCII string encoded by [appendString] reads back as itself. *)
Lemma decodeString_appendLoop (s rest : string) :
  isASCII s = true ->
  json.decodeString (json.appendLoop true 0 s +:+ String json.dquote rest) =
  Some (s, rest).
Proof.
  induction s as [|c s IH]; intros Hs; [reflexivity|].
  simpl in Hs. apply andb_true_iff in Hs as [Hc Hs].
  rewrite appendLoop_ascii by assumption.
  rewrite append_assoc, decodeString_encodedByte by assumption.
  rewrite IH by assumption. reflexivity.
Qed.

(** The JSON body of an error with an ASCII message holds that message. *)
Lemma readError_Marshal_Error (message : string) :
  isASCII message = true ->
  json.readError (Marshal_Error message) = Some message.
Proof.
  intros Hm. unfold json.readError.
  change (Marshal_Error message)
    with (("{" +:+ json.quote "error" +:+ ":" +:+ String json.dquote "")
          +:+ ((json.appendLoop true 0 message +:+ String json.dquote "") +:+ "}")).
  assert (Hstrip : forall p rest, json.stripPrefix p (p +:+ rest) = Some rest).
  { induction p as [|x p IH]; intros rest; [reflexivity|].
    change (String x p +:+ rest) with (String x (p +:+ rest)).
    cbn [json.stripPrefix]. rewrite Ascii.eqb_refl. apply IH. }
  rewrite Hstrip, append_assoc.
  change (String json.dquote "" +:+ "}") with (String json.dquote "}").
  rewrite decodeString_appendLoop by assumption. reflexivity.
Qed.

Section Properties.

Variable P : Platform.
Variable initial : Z -> string.

(** ** Port validation *)

(** The error [PortHandler] returns for a port that [newPortResponse]
    rejected. *)
Lemma PortHandler_rejects s r port err :
  strconv.ParseUint10 (filepath.Base (Path (url r))) 16 = (port, err) ->
  notNil err || (port <? 1) || (port >? 65355) = true ->
  PortHandler P initial s r =
  Some ([], Some {| Error := Some ("invalid port: " +:+ strconv.FormatUint port);
                    Message := "Invalid port: " +:+ strconv.FormatUint port;
                    Code := 400;
                    ContentType := "application/json" |}).
Proof.
  intros Hparse Hbad. unfold PortHandler, newPortResponse.
  rewrite Hparse, Hbad. reflexivity.
Qed.


(** ** The dispatch adapter *)

(** C2.  A handler that returns [nil] leaves the adapter nothing to write:
    the calls on the writer are the handler's.  A handler that returns an
    error has the adapter append the error's content type if it has one,
    its status code and a body; the body is the error's message, and for an
    error marked as JSON it is the JSON object whose one member [error] is
    that message (an ASCII message reads back from it), sent under the JSON
    content type. *)
Theorem C2_ServeHTTP (fn : appHandler) (r : Request) (cs : list Call)
    (e : option appError) :
  fn r = Some (cs, e) ->
  match e with
  | None => ServeHTTP fn r = Some (cs, tt)
  | Some err =>
    let body :=
      if IsJSON err
      then "{" +:+ json.quote "error" +:+ ":" +:+ json.quote (Message err) +:+ "}"
      else Message err in
    ServeHTTP fn r =
      Some (cs
            ++ (if String.eqb (ContentType err) "" then []
                else [SetHeader "Content-Type" (ContentType err)])
            ++ [WriteHeader (Code err); Write body], tt)
    /\ (IsJSON err = true ->
        ContentType err = "application/json"
        /\ (isASCII (Message err) = true -> json.readError body = Some (Message err)))
  end.
Proof.
  intros Hfn. destruct e as [err|].
  - split.
    + unfold ServeHTTP, bind. rewrite Hfn.
      destruct (IsJSON err); cbn [ContentType Code Message];
        destruct (String.eqb (ContentType err) ""); reflexivity.
    + intros Hjson. rewrite Hjson. split.
      * unfold IsJSON in Hjson. now apply String.eqb_eq in Hjson.
      * apply readError_Marshal_Error.
  - unfold ServeHTTP, bind. rewrite Hfn. simpl. now rewrite app_nil_r.
Qed.

(** The calls under the adapter when the handler returns an error. *)
Lemma ServeHTTP_calls (fn : appHandler) (r : Request) (cs : list Call) (e : appError) :
  fn r = Some (cs, Some e) ->
  ServeHTTP fn r = Some (cs ++ adapterCalls e, tt).
Proof.
  intros Hfn. unfold ServeHTTP, bind, adapterCalls. rewrite Hfn.
  destruct (IsJSON e); cbn [ContentType Code Message];
    destruct (String.eqb (ContentType e) ""); reflexivity.
Qed.

(** On a writer nothing was written to, the calls of the adapter leave the
    error's status code, its content type if it has one, and the body. *)
Lemma adapter_response (e : appError) :
  let headers : nethttp.Header :=
    if String.eqb (ContentType e) "" then ∅
    else {[ "Content-Type" := [ContentType e] ]} in
  recordAll (adapterCalls e) =
  {| header := headers;
     sent := Some (Code e, headers);
     body := if IsJSON e then Marshal_Error (Message e) else Message e |}.
Proof.
  unfold recordAll, adapterCalls.
  destruct (String.eqb (ContentType e) ""); cbn [app fold_left record].
  - reflexivity.
  - change (textproto.CanonicalMIMEHeaderKey "Content-Type") with "Content-Type".
    unfold newRecorder, writeHeader. cbn [sent header body].
    rewrite insert_empty. reflexivity.
Qed.

(** ** The caller's address *)

(** [ipFromRequest] against the specification's wording of the source. *)
Lemma ipFromRequest_callerAddress (header : string) (r : Request) :
  match callerAddress P header r with
  | Some ip => ipFromRequest P header r = (ip, None)
  | None => exists err, ipFromRequest P header r = ([], Some err)
  end.
Proof.
  unfold callerAddress, addressSource, ipFromRequest.
  destruct (String.eqb (Header_Get (Header_ r) header) "").
  - destruct (SplitHostPort P (RemoteAddr r)) as [[host port] [err|]].
    + eauto.
    + destruct (ParseIP P host); eauto.
  - destruct (ParseIP P (Header_Get (Header_ r) header)); eauto.
Qed.

Lemma ipFromRequest_fails_iff (header : string) (r : Request) :
  notNil (snd (ipFromRequest P header r)) = true <-> callerAddress P header r = None.
Proof.
  pose proof (ipFromRequest_callerAddress header r) as H.
  destruct (callerAddress P header r) as [ip|].
  - rewrite H. simpl. split; discriminate.
  - destruct H as [err ->]. simpl. split; reflexivity.
Qed.

(** C5.  [ipFromRequest] returns the address the specification's source
    yields (the header value when the header has one, else the host of the
    remote address) and an error exactly when that yields none; when the
    header has a value the result is a function of that value alone. *)
Theorem C5_ipFromRequest (header : string) (r : Request) :
  match callerAddress P header r with
  | Some ip => ipFromRequest P header r = (ip, None)
  | None => exists err, ipFromRequest P header r = ([], Some err)
  end
  /\ (notNil (snd (ipFromRequest P header r)) = true <-> callerAddress P header r = None)
  /\ forall r',
       Header_Get (Header_ r) header <> "" ->
       Header_Get (Header_ r') header = Header_Get (Header_ r) header ->
       ipFromRequest P header r' = ipFromRequest P header r.
Proof.
  split; [apply ipFromRequest_callerAddress|split].
  - apply ipFromRequest_fails_iff.
  - intros r' Hpresent Hsame. unfold ipFromRequest. rewrite Hsame.
    apply String.eqb_neq in Hpresent. rewrite Hpresent. reflexivity.
Qed.

(** ** The response builders *)




(** C7.  After the port check has passed and with the caller's address
    found, [newPortResponse] returns no error and [Reachable] tells whether
    the probe returned [nil]; the probe's error goes no further: a probe
    that fails with another error, or succeeds likewise, gives the same
    result of [PortHandler]. *)
Theorem C7_probe (s : Server) (r : Request) (port : Z) (ip : net.IP)
    (lookup : net.IP -> Z -> option error) :
  strconv.ParseUint10 (filepath.Base (Path (url r))) 16 = (port, None) ->
  1 <= port <= 65355 ->
  ipFromRequest P (IPHeader s) r = (ip, None) ->
  LookupPort s = Some lookup ->
  newPortResponse P s r =
    ret ({| PortResponse.IP := ip;
            PortResponse.Port := port;
            PortResponse.Reachable :=
              match lookup ip port with None => true | Some _ => false end |}, None)
  /\ forall lookup' : net.IP -> Z -> option error,
       notNil (lookup' ip port) = notNil (lookup ip port) ->
       PortHandler P initial (withLookupPort lookup' s) r = PortHandler P initial s r.
Proof.
  intros Hparse Hrange Hip Hlookup.
  assert (Hok : notNil (@None strconv.NumError) || (port <? 1) || (port >? 65355) = false)
    by (simpl; lia).
  split.
  - unfold newPortResponse. rewrite Hparse, Hok, Hip, Hlookup.
    destruct (lookup ip port); reflexivity.
  - intros lookup' Hsame. unfold PortHandler, newPortResponse, withLookupPort.
    cbn [IPHeader LookupPort]. rewrite Hparse, Hok, Hip, Hlookup, Hsame.
    reflexivity.
Qed.

(** A port from 1 to 65355 written in decimal as the last element of the
    path passes the check and is the port probed. *)
Lemma decimal_port_probed (s : Server) (r : Request) (p : Z) (ip : net.IP)
    (lookup : net.IP -> Z -> option error) :
  1 <= p <= 65355 ->
  filepath.Base (Path (url r)) = strconv.FormatUint p ->
  ipFromRequest P (IPHeader s) r = (ip, None) ->
  LookupPort s = Some lookup ->
  newPortResponse P s r =
    ret ({| PortResponse.IP := ip;
            PortResponse.Port := p;
            PortResponse.Reachable := negb (notNil (lookup ip p)) |}, None).
Proof.
  intros Hp Hbase Hip Hlookup.
  destruct (FormatUint_decimalValue p) as [Hnum Hval]; [lia|].
  unfold newPortResponse. rewrite Hbase, (ParseUint10_numeric _ Hnum), Hval.
  destruct (p <=? 65535) eqn:E; [|lia].
  replace (notNil None || (p <? 1) || (p >? 65355)) with false by (simpl; lia).
  rewrite Hip, Hlookup. reflexivity.
Qed.

(** ** The handlers *)


(** When the caller's address is not found, the handlers that answer with
    the address or the identity document return an internal server error
    and write nothing. *)
Lemma address_failure_internal (s : Server) (r : Request) (ip : net.IP) (err : error) :
  ipFromRequest P (IPHeader s) r = (ip, Some err) ->
  Forall (fun h : appHandler =>
            exists e, h r = Some ([], Some e)
                      /\ Code e = StatusInternalServerError
                      /\ Error e = Some err)
         [CLIHandler P initial s; JSONHandler P initial s; DefaultHandler P initial s;
          CLICountryHandler P initial s; CLICountryISOHandler P initial s;
          CLICityHandler P initial s].
Proof.
  intros Hip.
  assert (Hnew : newResponse P s r = (Response.zero, Some err))
    by (unfold newResponse; rewrite Hip; reflexivity).
  repeat constructor;
    unfold CLIHandler, JSONHandler, DefaultHandler, CLICountryHandler,
      CLICountryISOHandler, CLICityHandler;
    rewrite ?Hip, ?Hnew; eexists; (split; [reflexivity|split; reflexivity]).
Qed.

(** [PortHandler] in the same situation, the port being one the check
    lets through: a bad request, about the port. *)
Lemma address_failure_PortHandler (s : Server) (r : Request) (port : Z)
    (ip : net.IP) (err : error) :
  strconv.ParseUint10 (filepath.Base (Path (url r))) 16 = (port, None) ->
  1 <= port <= 65355 ->
  ipFromRequest P (IPHeader s) r = (ip, Some err) ->
  PortHandler P initial s r =
  Some ([], Some {| Error := Some err;
                    Message := "Invalid port: " +:+ strconv.FormatUint port;
                    Code := StatusBadRequest;
                    ContentType := jsonMediaType |}).
Proof.
  intros Hparse Hrange Hip. unfold PortHandler, newPortResponse.
  rewrite Hparse.
  replace (notNil None || (port <? 1) || (port >? 65355)) with false by (simpl; lia).
  rewrite Hip. reflexivity.
Qed.

(** C6.  [NotFoundHandler] writes nothing and returns the error of status
    404 with the message [404 page not found], marked as JSON exactly when
    the request's [Accept] header is [application/json]; under the adapter
    the body is then the JSON object with that message as its member
    [error], and the bare message otherwise. *)
Theorem C6_NotFoundHandler (r : Request) :
  let accepts := String.eqb (Header_Get (Header_ r) "Accept") "application/json" in
  exists e,
    NotFoundHandler initial r = Some ([], Some e)
    /\ Message e = "404 page not found"
    /\ Code e = StatusNotFound
    /\ IsJSON e = accepts
    /\ ServeHTTP (NotFoundHandler initial) r =
       Some (if accepts
             then [SetHeader "Content-Type" "application/json";
                   WriteHeader 404;
                   Write ("{" +:+ json.quote "error" +:+ ":"
                          +:+ json.quote "404 page not found" +:+ "}")]
             else [WriteHeader 404; Write "404 page not found"], tt).
Proof.
  intros accepts. unfold ServeHTTP, NotFoundHandler.
  change (Header_Get (Header_ r) "accept") with (Header_Get (Header_ r) "Accept").
  change (String.eqb (Header_Get (Header_ r) "Accept") jsonMediaType) with accepts.
  destruct accepts; eexists; repeat split.
Qed.

(** With no route of the router matching, dispatch falls to the not-found
    handler. *)
Lemma Dispatch_unmatched (rt : router) (r : Request) :
  forallb (fun ro => negb (matches ro r)) rt = true ->
  Dispatch initial rt r = NotFoundHandler initial.
Proof.
  induction rt as [|ro rt IH]; simpl; [reflexivity|].
  intros H. apply andb_true_iff in H as [Hro Hrt].
  apply negb_true_iff in Hro. rewrite Hro. auto.
Qed.

(** Dispatch picks the first route that matches. *)
Lemma Dispatch_first (before : router) (ro : route) (after : router) (r : Request) :
  forallb (fun ro' => negb (matches ro' r)) before = true ->
  matches ro r = true ->
  Dispatch initial (before ++ ro :: after) r = handler ro.
Proof.
  induction before as [|ro' before IH]; simpl; intros Hb Hm.
  - now rewrite Hm.
  - apply andb_true_iff in Hb as [Hro Hrt].
    apply negb_true_iff in Hro. rewrite Hro. auto.
Qed.

(** ** Routing *)

(** C10.  [cliMatcher] is true exactly when the product [useragent.Parse]
    finds in the request's User-Agent is one of the seven names, and two
    requests with the same User-Agent get the same answer. *)
Theorem C10_cliMatcher (r : Request) :
  (cliMatcher P r = true <->
   In (useragent.Product (Parse P (UserAgent r)))
      ["curl"; "HTTPie"; "Wget"; "fetch libfetch"; "Go"; "Go-http-client"; "ddclient"])
  /\ (cliMatcher P r = false <->
      ~ In (useragent.Product (Parse P (UserAgent r)))
          ["curl"; "HTTPie"; "Wget"; "fetch libfetch"; "Go"; "Go-http-client"; "ddclient"])
  /\ forall r' : Request,
       UserAgent r' = UserAgent r -> cliMatcher P r' = cliMatcher P r.
Proof.
  assert (Hiff : cliMatcher P r = true <->
     In (useragent.Product (Parse P (UserAgent r)))
        ["curl"; "HTTPie"; "Wget"; "fetch libfetch"; "Go"; "Go-http-client"; "ddclient"]).
  { unfold cliMatcher. rewrite existsb_exists. split.
    - intros [x [Hin Heq]]. apply String.eqb_eq in Heq. now subst x.
    - intros Hin. eexists. split; [exact Hin|apply String.eqb_refl]. }
  split; [exact Hiff|split].
  - rewrite <- Hiff. destruct (cliMatcher P r); split; congruence.
  - intros r' Hua. unfold cliMatcher. now rewrite Hua.
Qed.

(** C9.  The routes of [Server.Handler] in registration order. *)
Theorem C9_routes (s : Server) :
  let GET (rule : pathRule) (headers : list (string * string))
          (predicate : option (Request -> bool)) (h : appHandler) :=
    {| method := "GET"; rule := rule; headerMatchers := headers;
       predicate := predicate; handler := h |} in
  routes P initial s =
  [ GET (Exact "/") [("Accept", "application/json")] None (JSONHandler P initial s);
    GET (Exact "/json") [] None (JSONHandler P initial s);
    GET (Exact "/") [] (Some (cliMatcher P)) (CLIHandler P initial s);
    GET (Exact "/") [("Accept", "text/plain")] None (CLIHandler P initial s);
    GET (Exact "/ip") [] None (CLIHandler P initial s) ]
  ++ (if database.IsEmpty (db s) then []
      else [ GET (Exact "/country") [] None (CLICountryHandler P initial s);
             GET (Exact "/country-iso") [] None (CLICountryISOHandler P initial s);
             GET (Exact "/city") [] None (CLICityHandler P initial s) ])
  ++ [ GET (Exact "/") [] None (DefaultHandler P initial s) ]
  ++ match LookupPort s with
     | Some _ => [ GET (Prefix "/port/") [] None (PortHandler P initial s) ]
     | None => []
     end.
Proof.
  unfold routes. destruct (database.IsEmpty (db s)), (LookupPort s); reflexivity.
Qed.

End Properties.

(** * Further properties of http.go *)

Section Coverage.

Variable P : Platform.
Variable initial : Z -> string.

(** ** What a handler writes and what it returns *)

Lemma CLIHandler_lineOrError (s : Server) (r : Request) :
  lineOrError (CLIHandler P initial s) r.
Proof.
  unfold lineOrError, CLIHandler.
  destruct (ipFromRequest P (IPHeader s) r) as [ip [err|]]; [right|left];
    eexists; reflexivity.
Qed.

Lemma field_handlers_lineOrError (s : Server) (r : Request) :
  lineOrError (CLICountryHandler P initial s) r
  /\ lineOrError (CLICountryISOHandler P initial s) r
  /\ lineOrError (CLICityHandler P initial s) r.
Proof.
  unfold lineOrError, CLICountryHandler, CLICountryISOHandler, CLICityHandler.
  destruct (newResponse P s r) as [response [err|]];
    repeat split; solve [right; eexists; reflexivity | left; eexists; reflexivity].
Qed.

Lemma JSONHandler_jsonOrError (s : Server) (r : Request) :
  jsonOrError (JSONHandler P initial s) r.
Proof.
  unfold jsonOrError, JSONHandler.
  destruct (newResponse P s r) as [response [err|]].
  - right. eexists. split; reflexivity.
  - destruct (Marshal_Response P response) as [b [err|]].
    + right. eexists. split; reflexivity.
    + left. eexists. reflexivity.
Qed.

(** [newPortResponse] makes no call on the writer. *)
Lemma newPortResponse_no_calls (s : Server) (r : Request) cs result :
  newPortResponse P s r = Some (cs, result) -> cs = [].
Proof.
  unfold newPortResponse.
  destruct (strconv.ParseUint10 _ 16) as [port perr].
  destruct (notNil perr || (port <? 1) || (port >? 65355)).
  - intros H. now inversion H.
  - destruct (ipFromRequest P (IPHeader s) r) as [ip [err|]].
    + intros H. now inversion H.
    + destruct (LookupPort s); [|discriminate]. intros H. now inversion H.
Qed.

Lemma PortHandler_jsonOrError (s : Server) (r : Request) :
  PortHandler P initial s r = None \/ jsonOrError (PortHandler P initial s) r.
Proof.
  unfold jsonOrError, PortHandler, bind.
  destruct (newPortResponse P s r) as [[cs [response err]]|] eqn:Hnew; [right|now left].
  apply newPortResponse_no_calls in Hnew. subst cs.
  destruct err as [err|].
  - right. eexists. split; reflexivity.
  - destruct (Marshal_PortResponse P response) as [b [err|]].
    + right. eexists. split; reflexivity.
    + left. eexists. reflexivity.
Qed.

(** X1.  The four text handlers either write one line and return [nil], or
    write nothing and return an error.  [JSONHandler] and [PortHandler]
    either set the JSON content type, write one body and return [nil], or
    write nothing and return an error marked as JSON; [PortHandler] may
    also panic.  None of them writes and fails, and none returns [nil]
    without having written. *)
Theorem handlers_write_or_fail (s : Server) (r : Request) :
  Forall (fun h : appHandler => lineOrError h r)
         [CLIHandler P initial s; CLICountryHandler P initial s;
          CLICountryISOHandler P initial s; CLICityHandler P initial s]
  /\ jsonOrError (JSONHandler P initial s) r
  /\ (PortHandler P initial s r = None \/ jsonOrError (PortHandler P initial s) r).
Proof.
  destruct (field_handlers_lineOrError s r) as [H1 [H2 H3]].
  split; [|split].
  - repeat apply List.Forall_cons; try apply List.Forall_nil; auto using CLIHandler_lineOrError.
  - apply JSONHandler_jsonOrError.
  - apply PortHandler_jsonOrError.
Qed.

(** ** The response on the wire *)

Lemma served_error (fn : appHandler) (r : Request) (e : appError) :
  fn r = Some ([], Some e) ->
  served fn r = Some (recordAll (adapterCalls e)).
Proof.
  intros Hfn. unfold served. now rewrite (ServeHTTP_calls fn r [] e Hfn).
Qed.

Lemma served_nil (fn : appHandler) (r : Request) (cs : list Call) :
  fn r = Some (cs, None) ->
  served fn r = Some (recordAll cs).
Proof.
  intros Hfn. unfold served, ServeHTTP, bind. rewrite Hfn.
  cbn. now rewrite app_nil_r.
Qed.

Lemma lineOrError_status (h : appHandler) (r : Request) cs e :
  lineOrError h r ->
  h r = Some (cs, e) ->
  exists w, served h r = Some w
            /\ status w = Some (match e with
                                | None => StatusOK
                                | Some err => Code err
                                end).
Proof.
  intros [[line Hl]|[err He]] Hh.
  - rewrite Hl in Hh. inversion Hh; subst. eexists. split.
    + apply served_nil. exact Hl.
    + reflexivity.
  - rewrite He in Hh. inversion Hh; subst. eexists. split.
    + apply served_error. exact He.
    + rewrite adapter_response. reflexivity.
Qed.

Lemma jsonOrError_status (h : appHandler) (r : Request) cs e :
  jsonOrError h r ->
  h r = Some (cs, e) ->
  exists w, served h r = Some w
            /\ status w = Some (match e with
                                | None => StatusOK
                                | Some err => Code err
                                end)
            /\ sentHeader w "Content-Type" = Some ["application/json"].
Proof.
  intros [[b Hb]|[err [He Hjson]]] Hh.
  - rewrite Hb in Hh. inversion Hh; subst. eexists. split; [|split].
    + apply served_nil. exact Hb.
    + reflexivity.
    + unfold sentHeader, recordAll. cbn [fold_left record].
      change (textproto.CanonicalMIMEHeaderKey "Content-Type") with "Content-Type".
      cbn. apply lookup_insert_eq.
  - rewrite He in Hh. inversion Hh; subst. eexists. split; [|split].
    + apply served_error. exact He.
    + rewrite adapter_response. reflexivity.
    + rewrite adapter_response. unfold sentHeader. cbn [sent].
      unfold IsJSON in Hjson. apply String.eqb_eq in Hjson. rewrite Hjson.
      cbn. apply lookup_singleton_eq.
Qed.

(** X2.  Served under the adapter on a fresh writer, each of the six
    handlers that returns leaves the status 200 when it returned [nil] and
    the status code of its error when it returned one. *)
Theorem status_on_the_wire (s : Server) (r : Request) :
  Forall (fun h : appHandler =>
            forall cs e, h r = Some (cs, e) ->
            exists w, served h r = Some w
                      /\ status w = Some (match e with
                                          | None => StatusOK
                                          | Some err => Code err
                                          end))
         [CLIHandler P initial s; CLICountryHandler P initial s;
          CLICountryISOHandler P initial s; CLICityHandler P initial s;
          JSONHandler P initial s; PortHandler P initial s].
Proof.
  destruct (field_handlers_lineOrError s r) as [H1 [H2 H3]].
  repeat apply List.Forall_cons; try apply List.Forall_nil; intros cs e Hh.
  - eapply lineOrError_status; eauto using CLIHandler_lineOrError.
  - eapply lineOrError_status; eauto.
  - eapply lineOrError_status; eauto.
  - eapply lineOrError_status; eauto.
  - destruct (jsonOrError_status _ r cs e (JSONHandler_jsonOrError s r) Hh)
      as [w [Hw [Hs _]]]. eauto.
  - destruct (PortHandler_jsonOrError s r) as [Hp|Hp]; [congruence|].
    destruct (jsonOrError_status _ r cs e Hp Hh) as [w [Hw [Hs _]]]. eauto.
Qed.

(** X3.  [JSONHandler] and [PortHandler] answer under the content type
    [application/json] whenever they return, for a document and for an
    error alike. *)
Theorem json_handlers_content_type (s : Server) (r : Request) :
  Forall (fun h : appHandler =>
            forall cs e, h r = Some (cs, e) ->
            exists w, served h r = Some w
                      /\ sentHeader w "Content-Type" = Some ["application/json"])
         [JSONHandler P initial s; PortHandler P initial s].
Proof.
  repeat apply List.Forall_cons; try apply List.Forall_nil; intros cs e Hh.
  - destruct (jsonOrError_status _ r cs e (JSONHandler_jsonOrError s r) Hh)
      as [w [Hw [_ Hc]]]. eauto.
  - destruct (PortHandler_jsonOrError s r) as [Hp|Hp]; [congruence|].
    destruct (jsonOrError_status _ r cs e Hp Hh) as [w [Hw [_ Hc]]]. eauto.
Qed.

(** ** A template that fails after it has written *)

Lemma append_nil_r (a : string) : a +:+ "" = a.
Proof.
  induction a as [|x a IH]; [reflexivity|].
  change (String x (a +:+ "") = String x a). now rewrite IH.
Qed.

(** Once the status line is sent, no call changes it. *)
Lemma sent_stable (cs : list Call) : forall (w : Recorder) x,
  sent w = Some x -> sent (fold_left record cs w) = Some x.
Proof.
  induction cs as [|c cs IH]; intros w x Hw; [exact Hw|].
  cbn [fold_left]. apply IH.
  destruct c; cbn [record]; unfold writeHeader; rewrite Hw; cbn [sent];
    (exact Hw || reflexivity).
Qed.

(** The body is what it was, followed by everything written. *)
Lemma body_written (cs : list Call) : forall w : Recorder,
  body (fold_left record cs w) = body w +:+ written cs.
Proof.
  induction cs as [|c cs IH]; intros w; cbn [fold_left written].
  - now rewrite append_nil_r.
  - rewrite IH. destruct c; cbn [record]; unfold writeHeader.
    + reflexivity.
    + destruct (sent w); reflexivity.
    + destruct (sent w); cbn [body]; now rewrite append_assoc.
Qed.

Lemma writeAll_calls (chunks : list string) :
  writeAll chunks = Some (map Write chunks, tt).
Proof.
  induction chunks as [|chunk chunks IH]; [reflexivity|].
  cbn [writeAll]. unfold bind, call. rewrite IH. reflexivity.
Qed.

Lemma written_chunks (chunks : list string) (rest : list Call) :
  written (map Write chunks ++ rest) = joined chunks +:+ written rest.
Proof.
  induction chunks as [|chunk chunks IH]; [reflexivity|].
  cbn [map app written joined]. now rewrite IH, append_assoc.
Qed.

(** X4.  When the template of [DefaultHandler] fails after it has written
    something, the handler has written and returns an error as well: under
    the adapter the status on the wire stays 200, the one the first write
    sent, and the message of the internal server error follows the partial
    page in the body. *)
Theorem DefaultHandler_template_failure (s : Server) (r : Request)
    (response : Response.t) (t : Template_ P) (text : string)
    (chunks : list string) (err : error) :
  newResponse P s r = (response, None) ->
  ParseFiles P (Template s) = inl t ->
  MarshalIndent_Response P response = (text, None) ->
  Execute P t {| data_Response := response; data_Host := Host r;
                 data_JSON := text; data_Port := notNil (LookupPort s) |} =
    (chunks, Some err) ->
  chunks <> [] ->
  DefaultHandler P initial s r =
    Some (map Write chunks, Some (internalServerError initial (Some err)))
  /\ exists w,
       served (DefaultHandler P initial s) r = Some w
       /\ status w = Some StatusOK
       /\ body w = joined chunks
                   +:+ Message (internalServerError initial (Some err)).
Proof.
  intros Hnew Hparse Hjson Hexec Hchunks.
  assert (Hh : DefaultHandler P initial s r =
               Some (map Write chunks, Some (internalServerError initial (Some err)))).
  { unfold DefaultHandler. rewrite Hnew, Hparse, Hjson, Hexec.
    unfold bind. rewrite writeAll_calls. cbn. now rewrite app_nil_r. }
  split; [exact Hh|].
  eexists. split; [|split].
  - unfold served. rewrite (ServeHTTP_calls _ r _ _ Hh). reflexivity.
  - unfold status, recordAll.
    destruct chunks as [|chunk chunks]; [congruence|].
    cbn [map app fold_left].
    rewrite (sent_stable _ _ (StatusOK, ∅)); reflexivity.
  - unfold recordAll. rewrite body_written, written_chunks.
    unfold adapterCalls. cbn [IsJSON ContentType internalServerError newAppError].
    cbn. now rewrite append_nil_r.
Qed.

(** ** The nil port probe *)

(** X5.  [newPortResponse] panics exactly when no port probe is installed
    while the port passes the check and the caller's address is found. *)
Theorem newPortResponse_panics_iff (s : Server) (r : Request) :
  newPortResponse P s r = None <->
  LookupPort s = None
  /\ (exists port,
        strconv.ParseUint10 (filepath.Base (Path (url r))) 16 = (port, None)
        /\ 1 <= port <= 65355)
  /\ snd (ipFromRequest P (IPHeader s) r) = None.
Proof.
  unfold newPortResponse.
  destruct (strconv.ParseUint10 _ 16) as [port perr].
  destruct (notNil perr || (port <? 1) || (port >? 65355)) eqn:Hcheck.
  - split; [discriminate|]. intros [_ [[port' [Hp Hr]] _]].
    inversion Hp; subst. simpl in Hcheck. lia.
  - apply orb_false_iff in Hcheck as [Hcheck Hhi].
    apply orb_false_iff in Hcheck as [Herr Hlo].
    destruct perr; [discriminate|].
    destruct (ipFromRequest P (IPHeader s) r) as [ip [err|]].
    + split; [discriminate|]. intros [_ [_ H]]. discriminate.
    + destruct (LookupPort s).
      * split; [discriminate|]. intros [H _]. discriminate.
      * split; [|reflexivity]. intros _.
        split; [reflexivity|split; [|reflexivity]].
        exists port. split; [reflexivity|lia].
Qed.

Lemma PortHandler_returns (s : Server) (r : Request) lookup :
  LookupPort s = Some lookup -> PortHandler P initial s r <> None.
Proof.
  intros Hprobe. unfold PortHandler, newPortResponse, bind.
  destruct (strconv.ParseUint10 _ 16) as [port perr].
  destruct (notNil perr || (port <? 1) || (port >? 65355)); [discriminate|].
  destruct (ipFromRequest P (IPHeader s) r) as [ip [err|]]; [discriminate|].
  rewrite Hprobe. cbn.
  destruct (Marshal_PortResponse P _) as [b [err|]]; discriminate.
Qed.

Lemma DefaultHandler_returns (s : Server) (r : Request) :
  DefaultHandler P initial s r <> None.
Proof.
  unfold DefaultHandler.
  destruct (newResponse P s r) as [response [err|]]; [discriminate|].
  destruct (ParseFiles P (Template s)); [|discriminate].
  destruct (MarshalIndent_Response P response) as [text [err|]]; [discriminate|].
  destruct (Execute P _ _) as [chunks err].
  unfold bind. rewrite writeAll_calls. destruct err; discriminate.
Qed.

Lemma ServeHTTP_returns (fn : appHandler) (r : Request) :
  fn r <> None -> ServeHTTP fn r <> None.
Proof.
  intros Hfn. destruct (fn r) as [[cs [e|]]|] eqn:E; [| |congruence].
  - now rewrite (ServeHTTP_calls fn r cs e E).
  - unfold ServeHTTP, bind. rewrite E. discriminate.
Qed.

Lemma Dispatch_cases (rt : router) (r : Request) :
  Dispatch initial rt r = NotFoundHandler initial
  \/ In (Dispatch initial rt r) (map handler rt).
Proof.
  induction rt as [|ro rt IH]; [now left|].
  cbn [Dispatch map]. destruct (matches ro r).
  - right. now left.
  - destruct IH as [IH|IH]; [now left|right; now right].
Qed.

Lemma lineOrError_returns (h : appHandler) (r : Request) :
  lineOrError h r -> h r <> None.
Proof. intros [[line H]|[e H]]; rewrite H; discriminate. Qed.

Lemma jsonOrError_returns (h : appHandler) (r : Request) :
  jsonOrError h r -> h r <> None.
Proof. intros [[b H]|[e [H _]]]; rewrite H; discriminate. Qed.

(** X6.  The handler of the server never panics: [PortHandler], the one
    handler that calls the port probe, is registered only when the probe is
    installed. *)
Theorem Handler_never_panics (s : Server) (r : Request) :
  exists cs, Handler P initial s r = Some (cs, tt).
Proof.
  assert (Hret : Handler P initial s r <> None).
  { unfold Handler, Router_Handler. apply ServeHTTP_returns.
    destruct (field_handlers_lineOrError s r) as [H1 [H2 H3]].
    destruct (Dispatch_cases (routes P initial s) r) as [->|Hin]; [discriminate|].
    revert Hin. generalize (Dispatch initial (routes P initial s) r). intros h.
    unfold routes.
    destruct (database.IsEmpty (db s)), (LookupPort s) eqn:Hprobe;
      cbn; intros Hin;
      repeat (destruct Hin as [<-|Hin]);
      try (destruct Hin);
      solve [ apply jsonOrError_returns, JSONHandler_jsonOrError
            | apply lineOrError_returns; auto using CLIHandler_lineOrError
            | apply DefaultHandler_returns
            | eapply PortHandler_returns; eassumption ]. }
  destruct (Handler P initial s r) as [[cs []]|]; [eauto|congruence].
Qed.

(** ** The last element of the path *)

Lemma list_of_append (a b : string) :
  list_ascii_of_string (a +:+ b) = list_ascii_of_string a ++ list_ascii_of_string b.
Proof.
  induction a as [|x a IH]; [reflexivity|].
  change (String x a +:+ b) with (String x (a +:+ b)).
  cbn [list_ascii_of_string app]. now rewrite IH.
Qed.

Lemma list_of_slashes (n : nat) :
  list_ascii_of_string (slashes n) = repeat "/"%char n.
Proof. induction n as [|n IH]; [reflexivity|]. cbn. now rewrite IH. Qed.

Lemma noSlash_list (seg : string) :
  noSlash seg = forallb (fun c => negb (filepath.isPathSeparator c))
                        (list_ascii_of_string seg).
Proof. induction seg as [|c seg IH]; [reflexivity|]. cbn. now rewrite IH. Qed.

Lemma stripTrailing_slashes (n : nat) (rest : list ascii) :
  filepath.stripTrailing (repeat "/"%char n ++ rest) = filepath.stripTrailing rest.
Proof. induction n as [|n IH]; [reflexivity|]. cbn. exact IH. Qed.

Lemma lastElement_segment (elem rest : list ascii) :
  forallb (fun c => negb (filepath.isPathSeparator c)) elem = true ->
  filepath.lastElement (elem ++ "/"%char :: rest) = elem.
Proof.
  induction elem as [|c elem IH]; intros H; [reflexivity|].
  cbn in H. apply andb_true_iff in H as [Hc Helem].
  apply negb_true_iff in Hc. cbn [app filepath.lastElement]. rewrite Hc.
  now rewrite IH.
Qed.

(** [filepath.Base] of a path that ends in a slash-free element followed
    by slashes only is that element. *)
Lemma Base_last_element (pre seg : string) (n : nat) :
  seg <> "" -> noSlash seg = true ->
  filepath.Base (pre +:+ String "/" (seg +:+ slashes n)) = seg.
Proof.
  intros Hne Hns. unfold filepath.Base.
  assert (Hpath : String.eqb (pre +:+ String "/" (seg +:+ slashes n)) "" = false).
  { apply String.eqb_neq. intros Hc.
    apply (f_equal list_ascii_of_string) in Hc. rewrite list_of_append in Hc.
    cbn in Hc. destruct (list_ascii_of_string pre); discriminate. }
  rewrite Hpath, list_of_append. cbn [list_ascii_of_string].
  rewrite list_of_append, list_of_slashes.
  rewrite rev_app_distr. cbn [rev]. rewrite rev_app_distr, rev_repeat.
  rewrite <- !app_assoc. rewrite stripTrailing_slashes.
  rewrite noSlash_list in Hns.
  assert (Hrev : forallb (fun c => negb (filepath.isPathSeparator c))
                         (rev (list_ascii_of_string seg)) = true).
  { apply forallb_forall. intros c Hc. apply in_rev in Hc.
    rewrite forallb_forall in Hns. auto. }
  assert (Hlist : list_ascii_of_string seg <> []).
  { intros Hc. apply Hne. rewrite <- (string_of_list_ascii_of_string seg).
    now rewrite Hc. }
  assert (Hstop : filepath.stripTrailing
                    (rev (list_ascii_of_string seg)
                     ++ ["/"%char] ++ rev (list_ascii_of_string pre)) =
                  rev (list_ascii_of_string seg)
                  ++ ["/"%char] ++ rev (list_ascii_of_string pre)).
  { destruct (rev (list_ascii_of_string seg)) as [|c elem] eqn:E.
    - apply (f_equal (@rev ascii)) in E. rewrite rev_involutive in E.
      contradiction.
    - cbn in Hrev. apply andb_true_iff in Hrev as [Hc _].
      apply negb_true_iff in Hc. cbn. now rewrite Hc. }
  rewrite Hstop. cbn [app]. rewrite lastElement_segment by exact Hrev.
  rewrite rev_involutive.
  destruct (list_ascii_of_string seg) eqn:E; [contradiction|].
  rewrite <- E. apply string_of_list_ascii_of_string.
Qed.

(** X7.  [newPortResponse] reads the port in the last element of the path,
    whatever comes before it and however many slashes follow it: the
    result is that of the request for [/port/] and that element. *)
Theorem newPortResponse_last_element (s : Server) (r : Request)
    (pre seg : string) (n : nat) :
  Path (url r) = pre +:+ String "/" (seg +:+ slashes n) ->
  seg <> "" -> noSlash seg = true ->
  filepath.Base (Path (url r)) = seg
  /\ newPortResponse P s r = newPortResponse P s (withPath ("/port/" +:+ seg) r).
Proof.
  intros Hpath Hne Hns.
  assert (H1 : filepath.Base (Path (url r)) = seg)
    by (rewrite Hpath; now apply Base_last_element).
  assert (H2 : filepath.Base (Path (url (withPath ("/port/" +:+ seg) r))) = seg).
  { change (Path (url (withPath ("/port/" +:+ seg) r)))
      with ("/port" +:+ String "/" seg).
    rewrite <- (append_nil_r seg) at 1.
    now apply (Base_last_element "/port" seg 0). }
  split; [exact H1|].
  unfold newPortResponse. rewrite H1, H2. reflexivity.
Qed.

(** ** One response, several renderings *)

(** X8.  With the caller's address found, the handlers render one and the
    same response of [newResponse]: the text handlers write its address
    and its country, ISO code and city, each on one line (an empty line
    for an empty field), [JSONHandler] writes the object of its members,
    and [DefaultHandler] hands it to the template with the indented form
    of the same members. *)
Theorem renderings_agree (s : Server) (r : Request) (ip : net.IP) :
  ipFromRequest P (IPHeader s) r = (ip, None) ->
  length ip = 16%nat ->
  exists response,
    newResponse P s r = (response, None)
    /\ Response.IP response = ip
    /\ Response.IPDecimal response = ToDecimal P ip
    /\ CLIHandler P initial s r =
       Some ([Write (IP_String P ip +:+ json.newline)], None)
    /\ CLICountryHandler P initial s r =
       Some ([Write (Response.Country response +:+ json.newline)], None)
    /\ CLICountryISOHandler P initial s r =
       Some ([Write (Response.CountryISO response +:+ json.newline)], None)
    /\ CLICityHandler P initial s r =
       Some ([Write (Response.City response +:+ json.newline)], None)
    /\ JSONHandler P initial s r =
       Some ([SetHeader "Content-Type" "application/json";
              Write (json.object (Response_members (IP_String P ip) response))], None)
    /\ forall t, ParseFiles P (Template s) = inl t ->
         DefaultHandler P initial s r =
         let '(chunks, err) :=
           Execute P t
             {| data_Response := response;
                data_Host := Host r;
                data_JSON := json.objectIndent "  "
                               (Response_members (IP_String P ip) response);
                data_Port := notNil (LookupPort s) |} in
         Some (map Write chunks,
               match err with
               | Some err => Some (internalServerError initial (Some err))
               | None => None
               end).
Proof.
  intros Hip Hlen.
  assert (Hnew : exists response, newResponse P s r = (response, None)
                                  /\ Response.IP response = ip
                                  /\ Response.IPDecimal response = ToDecimal P ip).
  { unfold newResponse. rewrite Hip.
    destruct (database.Country_ (db s) ip), (database.City (db s) ip).
    eexists. repeat split. }
  destruct Hnew as [response [Hnew [Hrip Hdec]]]. exists response.
  assert (Htext : IP_MarshalText P (Response.IP response) = (IP_String P ip, None))
    by (unfold IP_MarshalText; rewrite Hrip, Hlen; reflexivity).
  repeat split; try assumption.
  - unfold CLIHandler. rewrite Hip. reflexivity.
  - unfold CLICountryHandler. rewrite Hnew. reflexivity.
  - unfold CLICountryISOHandler. rewrite Hnew. reflexivity.
  - unfold CLICityHandler. rewrite Hnew. reflexivity.
  - unfold JSONHandler, Marshal_Response. rewrite Hnew, Htext. reflexivity.
  - intros t Ht. unfold DefaultHandler, MarshalIndent_Response.
    rewrite Hnew, Ht, Htext.
    destruct (Execute P t _) as [chunks err].
    unfold bind. rewrite writeAll_calls.
    destruct err; cbn; now rewrite app_nil_r.
Qed.

(** ** The port check, in full *)

Lemma decimalValue_nonneg (seg : string) :
  allDigits seg = true -> 0 <= decimalValue seg.
Proof. intros H. apply (valueFrom_ge seg 0 H). lia. Qed.

(** What [ParseUint] returns for a segment the check turns away. *)
Lemma ParseUint10_reported (seg : string) :
  ~ (numeric seg = true /\ 1 <= decimalValue seg <= 65355) ->
  exists err,
    strconv.ParseUint10 seg 16 = (reported seg, err)
    /\ notNil err || (reported seg <? 1) || (reported seg >? 65355) = true.
Proof.
  intros Hbad. unfold reported. destruct (numeric seg) eqn:Hnum.
  - rewrite (ParseUint10_numeric seg Hnum).
    assert (Hpos : 0 <= decimalValue seg).
    { apply decimalValue_nonneg. unfold numeric in Hnum.
      now apply andb_true_iff in Hnum as [_ Hd]. }
    destruct (decimalValue seg <=? 65535) eqn:E.
    + rewrite Z.min_l by lia. eexists. split; [reflexivity|].
      cbn [notNil orb].
      destruct (decimalValue seg <? 1) eqn:E1; [reflexivity|].
      destruct (decimalValue seg >? 65355) eqn:E2; [reflexivity|].
      exfalso. apply Hbad. split; [reflexivity|lia].
    + rewrite Z.min_r by lia. eexists. split; reflexivity.
  - rewrite (ParseUint10_not_numeric seg Hnum).
    destruct (decimalValue (leadingDigits seg) <=? 65535);
      eexists; split; reflexivity.
Qed.

(** X9.  Every last element that is not a decimal number from 1 to 65355
    is turned away by [newPortResponse] with the error [invalid port: N]:
    N is the number itself for a number up to 65535 (zero, and the ports
    65356 to 65535 with it), 65535 for a larger one, and for an element
    that is no number 0, or 65535 when its leading digits exceed 65535. *)
Theorem port_check_rejects (s : Server) (r : Request) :
  let seg := filepath.Base (Path (url r)) in
  ~ (numeric seg = true /\ 1 <= decimalValue seg <= 65355) ->
  newPortResponse P s r =
    ret (portOnly (reported seg),
         Some ("invalid port: " +:+ strconv.FormatUint (reported seg)))
  /\ (numeric seg = true -> decimalValue seg <= 65535 ->
      reported seg = decimalValue seg)
  /\ (numeric seg = true -> 65535 < decimalValue seg -> reported seg = 65535)
  /\ (numeric seg = false ->
      reported seg = if decimalValue (leadingDigits seg) <=? 65535 then 0 else 65535).
Proof.
  intros seg Hbad.
  destruct (ParseUint10_reported seg Hbad) as [err [Hparse Hcheck]].
  split; [|split; [|split]].
  - unfold newPortResponse. fold seg. rewrite Hparse, Hcheck. reflexivity.
  - intros Hnum Hle. unfold reported. rewrite Hnum. lia.
  - intros Hnum Hgt. unfold reported. rewrite Hnum. lia.
  - intros Hnum. unfold reported. now rewrite Hnum.
Qed.

Lemma byteZ_byteOf (z : Z) : 0 <= z < 256 -> byteZ (byteOf z) = z.
Proof.
  intros Hz. unfold byteZ, byteOf. rewrite N_ascii_embedding by lia. lia.
Qed.

Lemma formatLoop_ascii (fuel : nat) : forall n acc,
  isASCII acc = true -> isASCII (strconv.formatLoop fuel n acc) = true.
Proof.
  assert (Hdigit : forall n acc, isASCII acc = true ->
            isASCII (String (byteOf (byteZ "0" + n mod 10)) acc) = true).
  { intros n acc Hacc. cbn [isASCII]. rewrite Hacc.
    change (byteZ "0") with 48.
    pose proof (Z.mod_pos_bound n 10 ltac:(lia)).
    rewrite byteZ_byteOf by lia.
    destruct (48 + n mod 10 <? 128) eqn:E; [reflexivity|lia]. }
  induction fuel as [|fuel IH]; intros n acc Hacc; cbn [strconv.formatLoop].
  - now apply Hdigit.
  - destruct (n <? 10); [now apply Hdigit|]. apply IH. now apply Hdigit.
Qed.

Lemma isASCII_invalid_port (n : Z) :
  isASCII ("Invalid port: " +:+ strconv.FormatUint n) = true.
Proof.
  change (isASCII ("Invalid port: " +:+ strconv.FormatUint n))
    with (isASCII (strconv.FormatUint n)).
  apply formatLoop_ascii. reflexivity.
Qed.

(** X10.  A request [PortHandler] turns away for its port is answered,
    under the adapter, with status 400 and the JSON content type, and the
    body is a JSON object whose member [error] reads [Invalid port: N], N
    as [newPortResponse] reports it. *)
Theorem rejected_port_on_the_wire (s : Server) (r : Request) :
  let seg := filepath.Base (Path (url r)) in
  ~ (numeric seg = true /\ 1 <= decimalValue seg <= 65355) ->
  exists w,
    served (PortHandler P initial s) r = Some w
    /\ status w = Some StatusBadRequest
    /\ sentHeader w "Content-Type" = Some ["application/json"]
    /\ json.readError (body w) =
       Some ("Invalid port: " +:+ strconv.FormatUint (reported seg)).
Proof.
  intros seg Hbad.
  destruct (ParseUint10_reported seg Hbad) as [err [Hparse Hcheck]].
  pose proof (PortHandler_rejects P initial s r _ _ Hparse Hcheck) as Hh.
  set (e := {| Error := Some ("invalid port: " +:+ strconv.FormatUint (reported seg));
               Message := "Invalid port: " +:+ strconv.FormatUint (reported seg);
               Code := 400;
               ContentType := "application/json" |}) in Hh.
  pose proof (adapter_response e) as Hw. cbv zeta in Hw.
  change (IsJSON e) with true in Hw.
  change (String.eqb (ContentType e) "") with false in Hw.
  eexists. split; [apply served_error; exact Hh|].
  rewrite Hw. unfold status, sentHeader. cbn [sent body Code ContentType Message e].
  split; [reflexivity|split].
  - apply lookup_singleton_eq.
  - apply readError_Marshal_Error, isASCII_invalid_port.
Qed.

(** X11.  With the port let through, the caller's address found (16 bytes)
    and a probe installed, [PortHandler] sets the JSON content type and
    writes the object of the address, the port and the probe's verdict;
    the port is printed as the number the element denotes, leading zeros
    dropped, so that it reads back as that number. *)
Theorem PortHandler_document (s : Server) (r : Request) (ip : net.IP)
    (lookup : net.IP -> Z -> option error) :
  let seg := filepath.Base (Path (url r)) in
  numeric seg = true ->
  1 <= decimalValue seg <= 65355 ->
  ipFromRequest P (IPHeader s) r = (ip, None) ->
  length ip = 16%nat ->
  LookupPort s = Some lookup ->
  PortHandler P initial s r =
    Some ([SetHeader "Content-Type" "application/json";
           Write (json.object
                    [("ip", json.quote (IP_String P ip));
                     ("port", strconv.FormatUint (decimalValue seg));
                     ("reachable",
                      json.bool (negb (notNil (lookup ip (decimalValue seg)))))])],
          None)
  /\ numeric (strconv.FormatUint (decimalValue seg)) = true
  /\ decimalValue (strconv.FormatUint (decimalValue seg)) = decimalValue seg.
Proof.
  intros seg Hnum Hrange Hip Hlen Hprobe. split.
  - unfold PortHandler, newPortResponse. fold seg.
    rewrite (ParseUint10_numeric seg Hnum).
    destruct (decimalValue seg <=? 65535) eqn:E; [|lia].
    replace (notNil None || (decimalValue seg <? 1) || (decimalValue seg >? 65355))
      with false by (simpl; lia).
    rewrite Hip, Hprobe. unfold bind, ret.
    unfold Marshal_PortResponse, IP_MarshalText.
    cbn [PortResponse.IP PortResponse.Port PortResponse.Reachable].
    rewrite Hlen. reflexivity.
  - apply FormatUint_decimalValue. lia.
Qed.

(** ** The adapter after a handler that has written *)





(** X13.  When the database knows nothing of the address and no reverse
    lookup gives a name, the document of [JSONHandler] has the two
    members [ip] and [ip_decimal] and no other. *)
Theorem JSONHandler_minimal_document (s : Server) (r : Request) (ip : net.IP) :
  ipFromRequest P (IPHeader s) r = (ip, None) ->
  length ip = 16%nat ->
  fst (database.Country_ (db s) ip) = {| database.Name := ""; database.ISO := "" |} ->
  fst (database.City (db s) ip) = "" ->
  match LookupAddr s with
  | Some lookup => fst (lookup ip) = ""
  | None => True
  end ->
  JSONHandler P initial s r =
    Some ([SetHeader "Content-Type" "application/json";
           Write (json.object
                    [("ip", json.quote (IP_String P ip));
                     ("ip_decimal", strconv.FormatUint (ToDecimal P ip))])],
          None).
Proof.
  intros Hip Hlen Hcountry Hcity Hhost.
  unfold JSONHandler, newResponse. rewrite Hip.
  destruct (database.Country_ (db s) ip) as [country cerr].
  destruct (database.City (db s) ip) as [city yerr].
  cbn [fst] in Hcountry, Hcity. subst country city.
  assert (Hname : match LookupAddr s with
                  | Some lookup => fst (lookup ip)
                  | None => ""
                  end = "") by (destruct (LookupAddr s); auto).
  rewrite Hname. unfold Marshal_Response, IP_MarshalText.
  cbn [Response.IP]. rewrite Hlen. reflexivity.
Qed.

End Coverage.

(** * The properties on the test platform *)

Example Base_port : filepath.Base "/port/8080" = "8080".
Proof. reflexivity. Qed.

Example Base_trailing_slashes : filepath.Base "/port/80//" = "80".
Proof. reflexivity. Qed.

Example Base_prefix_only : filepath.Base "/port/" = "port".
Proof. reflexivity. Qed.

Example ParseUint10_out_of_range :
  strconv.ParseUint10 "70000" 16 = (65535, Some strconv.ErrRange).
Proof. reflexivity. Qed.

Example ParseUint10_digits_then_letter :
  strconv.ParseUint10 "70000x" 16 = (65535, Some strconv.ErrRange)
  /\ strconv.ParseUint10 "7x" 16 = (0, Some strconv.ErrSyntax).
Proof. split; reflexivity. Qed.

Example FormatUint_max : strconv.FormatUint (2 ^ 64 - 1) = "18446744073709551615".
Proof. reflexivity. Qed.

Example CanonicalMIMEHeaderKey_real_ip :
  textproto.CanonicalMIMEHeaderKey "x-real-IP" = "X-Real-Ip".
Proof. reflexivity. Qed.

(** The port probe answers on port 80. *)
Example port_80_reachable :
  Handler Fixture.platform Fixture.initial Fixture.server
    (Fixture.get "/port/80" "127.0.0.1:5000" []) =
  Some ([SetHeader "Content-Type" "application/json";
         Write ("{" +:+ json.quote "ip" +:+ ":" +:+ json.quote "127.0.0.1" +:+ ","
                +:+ json.quote "port" +:+ ":80,"
                +:+ json.quote "reachable" +:+ ":true}")], tt).
Proof. vm_compute. reflexivity. Qed.

(** The JSON route for the root comes before the route for command-line
    clients: curl asking for JSON gets JSON. *)
Example root_json_before_cli :
  let r := Fixture.get "/" "127.0.0.1:5000"
             [("User-Agent", "curl/7.43.0"); ("Accept", "application/json")] in
  cliMatcher Fixture.platform r = true
  /\ Dispatch Fixture.initial (routes Fixture.platform Fixture.initial Fixture.server) r =
     JSONHandler Fixture.platform Fixture.initial Fixture.server.
Proof. split; reflexivity. Qed.

(** curl on the root without an [Accept] header gets its address as text. *)
Example root_cli :
  Handler Fixture.platform Fixture.initial Fixture.server
    (Fixture.get "/" "127.0.0.1:5000" [("User-Agent", "curl/7.43.0")]) =
  Some ([Write ("127.0.0.1" +:+ json.newline)], tt).
Proof. vm_compute. reflexivity. Qed.

(** Without a port probe there is no port route: the request is not found. *)
Example port_route_needs_probe :
  Handler Fixture.platform Fixture.initial (New Fixture.testDb)
    (Fixture.get "/port/80" "127.0.0.1:5000" []) =
  Some ([WriteHeader 404; Write "404 page not found"], tt).
Proof. vm_compute. reflexivity. Qed.

(** A message with a quote and an angle bracket, as the adapter sends it
    and as it reads back. *)
Example Marshal_Error_escapes :
  let message := "no <b>" +:+ String json.dquote "port" +:+ String json.dquote "" in
  Marshal_Error message =
    "{" +:+ json.quote "error" +:+ ":" +:+ String json.dquote "no \u003cb\u003e\"
    +:+ String json.dquote "port\" +:+ String json.dquote (String json.dquote "}")
  /\ json.readError (Marshal_Error message) = Some message.
Proof. split; vm_compute; reflexivity. Qed.

(** The bound of the port check is 65355: the ports from 65356 to 65535 are
    turned away. *)
Example port_65535_rejected :
  let r := Fixture.get "/port/65535" "127.0.0.1:5000" [] in
  newPortResponse Fixture.platform Fixture.server r =
    ret (portOnly 65535, Some "invalid port: 65535")
  /\ Handler Fixture.platform Fixture.initial Fixture.server r =
     Some ([SetHeader "Content-Type" "application/json";
            WriteHeader 400;
            Write ("{" +:+ json.quote "error" +:+ ":"
                   +:+ json.quote "Invalid port: 65535" +:+ "}")], tt).
Proof. split; vm_compute; reflexivity. Qed.



Lemma C2_ServeHTTP_witness :
  let fn := NotFoundHandler Fixture.initial in
  let r := Fixture.get "/nonexistent" "127.0.0.1:5000" [("Accept", "application/json")] in
  let e := {| Error := None; Message := "404 page not found"; Code := 404;
              ContentType := "application/json" |} in
  fn r = Some ([], Some e)
  /\ ServeHTTP fn r =
     Some ([SetHeader "Content-Type" "application/json";
            WriteHeader 404;
            Write ("{" +:+ json.quote "error" +:+ ":"
                   +:+ json.quote "404 page not found" +:+ "}")], tt).
Proof.
  intros fn r e.
  assert (H : fn r = Some ([], Some e)) by reflexivity.
  split; [exact H|].
  exact (proj1 (C2_ServeHTTP fn r [] (Some e) H)).
Defined.


Lemma C5_ipFromRequest_witness :
  let r := Fixture.get "/" "127.0.0.1:5000" [("X-Real-IP", "10.1.1.1")] in
  let r' := Fixture.get "/" "no address" [("X-Real-IP", "10.1.1.1")] in
  Header_Get (Header_ r) "X-Real-IP" <> ""
  /\ Header_Get (Header_ r') "X-Real-IP" = Header_Get (Header_ r) "X-Real-IP"
  /\ ipFromRequest Fixture.platform "X-Real-IP" r' =
     ipFromRequest Fixture.platform "X-Real-IP" r.
Proof.
  intros r r'.
  assert (H1 : Header_Get (Header_ r) "X-Real-IP" <> "")
    by (intro Hc; vm_compute in Hc; discriminate).
  assert (H2 : Header_Get (Header_ r') "X-Real-IP" = Header_Get (Header_ r) "X-Real-IP")
    by reflexivity.
  split; [exact H1|split; [exact H2|]].
  exact (proj2 (proj2 (C5_ipFromRequest Fixture.platform "X-Real-IP" r)) r' H1 H2).
Defined.

Lemma C7_probe_witness :
  let r := Fixture.get "/port/80" "127.0.0.1:5000" [] in
  let ip := Fixture.v4 127 0 0 1 in
  strconv.ParseUint10 (filepath.Base (Path (url r))) 16 = (80, None)
  /\ 1 <= 80 <= 65355
  /\ ipFromRequest Fixture.platform (IPHeader Fixture.server) r = (ip, None)
  /\ LookupPort Fixture.server = Some Fixture.lookupPort
  /\ newPortResponse Fixture.platform Fixture.server r =
     ret ({| PortResponse.IP := ip; PortResponse.Port := 80;
             PortResponse.Reachable := true |}, None)
  /\ PortHandler Fixture.platform Fixture.initial
       (withLookupPort (fun _ _ => None) Fixture.server) r =
     PortHandler Fixture.platform Fixture.initial Fixture.server r.
Proof.
  intros r ip.
  assert (Hrange : 1 <= 80 <= 65355) by lia.
  destruct (C7_probe Fixture.platform Fixture.initial Fixture.server r 80 ip
              Fixture.lookupPort eq_refl Hrange eq_refl eq_refl) as [Hnew Hsame].
  split; [reflexivity|split; [exact Hrange|split; [reflexivity|split; [reflexivity|]]]].
  split; [exact Hnew|].
  apply Hsame. reflexivity.
Defined.


Lemma C10_cliMatcher_witness :
  let r := Fixture.get "/" "127.0.0.1:5000" [("User-Agent", "curl/7.43.0")] in
  let r' := Fixture.get "/ip" "10.0.0.1:80" [("User-Agent", "curl/7.43.0"); ("Accept", "*/*")] in
  UserAgent r' = UserAgent r
  /\ cliMatcher Fixture.platform r = true
  /\ cliMatcher Fixture.platform r' = cliMatcher Fixture.platform r.
Proof.
  intros r r'.
  assert (Hua : UserAgent r' = UserAgent r) by reflexivity.
  split; [exact Hua|split].
  - apply (proj1 (C10_cliMatcher Fixture.platform r)). simpl. auto.
  - exact (proj2 (proj2 (C10_cliMatcher Fixture.platform r)) r' Hua).
Defined.

(** C4, as stated, fails for [PortHandler]: port 80 passes the check, the
    caller's address does not parse, and the error is a bad request about
    the port, where [CLIHandler] on the same request returns an internal
    server error. *)
Theorem C4_PortHandler_address_failure :
  let r := Fixture.get "/port/80" "127.0.0.1:5000" [("X-Real-IP", "not-an-address")] in
  strconv.ParseUint10 (filepath.Base (Path (url r))) 16 = (80, None)
  /\ callerAddress Fixture.platform (IPHeader Fixture.server) r = None
  /\ PortHandler Fixture.platform Fixture.initial Fixture.server r =
     Some ([], Some {| Error := Some "could not parse IP: not-an-address";
                       Message := "Invalid port: 80";
                       Code := 400;
                       ContentType := "application/json" |})
  /\ CLIHandler Fixture.platform Fixture.initial Fixture.server r =
     Some ([], Some {| Error := Some "could not parse IP: not-an-address";
                       Message := "Internal server error";
                       Code := 500;
                       ContentType := "" |}).
Proof. cbv zeta. repeat split; vm_compute; reflexivity. Qed.

(** ** The further properties on the test platform *)

Lemma status_on_the_wire_witness :
  let r := Fixture.get "/ip" "127.0.0.1:5000" [] in
  CLIHandler Fixture.platform Fixture.initial Fixture.server r =
    Some ([Write ("127.0.0.1" +:+ json.newline)], None)
  /\ exists w,
       served (CLIHandler Fixture.platform Fixture.initial Fixture.server) r = Some w
       /\ status w = Some StatusOK.
Proof.
  intros r. split; [reflexivity|].
  pose proof (status_on_the_wire Fixture.platform Fixture.initial Fixture.server r) as H.
  apply List.Forall_inv in H.
  exact (H [Write ("127.0.0.1" +:+ json.newline)] None eq_refl).
Defined.

Lemma json_handlers_content_type_witness :
  let r := Fixture.get "/json" "no address" [] in
  let e := AsJSON (internalServerError Fixture.initial (Some "missing port in address")) in
  JSONHandler Fixture.platform Fixture.initial Fixture.server r = Some ([], Some e)
  /\ exists w,
       served (JSONHandler Fixture.platform Fixture.initial Fixture.server) r = Some w
       /\ sentHeader w "Content-Type" = Some ["application/json"].
Proof.
  intros r e. split; [reflexivity|].
  pose proof (json_handlers_content_type Fixture.platform Fixture.initial
                Fixture.server r) as H.
  apply List.Forall_inv in H.
  exact (H [] (Some e) eq_refl).
Defined.

Lemma DefaultHandler_template_failure_witness :
  let r := Fixture.get "/" "127.0.0.1:5000" [] in
  let response := fst (newResponse brokenTemplate Fixture.server r) in
  let text := fst (MarshalIndent_Response brokenTemplate response) in
  newResponse brokenTemplate Fixture.server r = (response, None)
  /\ MarshalIndent_Response brokenTemplate response = (text, None)
  /\ exists w,
       served (DefaultHandler brokenTemplate Fixture.initial Fixture.server) r = Some w
       /\ status w = Some StatusOK
       /\ body w = "<html>ifconfig.co" +:+ "Internal server error".
Proof.
  intros r response text.
  assert (H1 : newResponse brokenTemplate Fixture.server r = (response, None))
    by reflexivity.
  assert (H2 : MarshalIndent_Response brokenTemplate response = (text, None))
    by reflexivity.
  split; [exact H1|split; [exact H2|]].
  exact (proj2 (DefaultHandler_template_failure brokenTemplate Fixture.initial
                  Fixture.server r response tt text
                  ["<html>" +:+ "ifconfig.co"] "template: no such field"
                  H1 eq_refl H2 eq_refl ltac:(discriminate))).
Defined.

Lemma newPortResponse_last_element_witness :
  let r := Fixture.get "/port/probe/0080//" "127.0.0.1:5000" [] in
  Path (url r) = "/port/probe" +:+ String "/" ("0080" +:+ slashes 2)
  /\ filepath.Base (Path (url r)) = "0080"
  /\ newPortResponse Fixture.platform Fixture.server r =
     newPortResponse Fixture.platform Fixture.server (withPath ("/port/" +:+ "0080") r).
Proof.
  intros r.
  assert (H : Path (url r) = "/port/probe" +:+ String "/" ("0080" +:+ slashes 2))
    by reflexivity.
  split; [exact H|].
  exact (newPortResponse_last_element Fixture.platform Fixture.server r
           "/port/probe" "0080" 2 H ltac:(discriminate) eq_refl).
Defined.

Lemma renderings_agree_witness :
  let r := Fixture.get "/" "127.0.0.1:5000" [] in
  ipFromRequest Fixture.platform (IPHeader Fixture.server) r =
    (Fixture.v4 127 0 0 1, None)
  /\ exists response,
       newResponse Fixture.platform Fixture.server r = (response, None)
       /\ CLICountryHandler Fixture.platform Fixture.initial Fixture.server r =
          Some ([Write (Response.Country response +:+ json.newline)], None)
       /\ JSONHandler Fixture.platform Fixture.initial Fixture.server r =
          Some ([SetHeader "Content-Type" "application/json";
                 Write (json.object (Response_members "127.0.0.1" response))], None).
Proof.
  intros r. split; [reflexivity|].
  destruct (renderings_agree Fixture.platform Fixture.initial Fixture.server r
              (Fixture.v4 127 0 0 1) eq_refl eq_refl)
    as [response [Hnew [_ [_ [_ [Hcountry [_ [_ [Hjson _]]]]]]]]].
  exists response. split; [exact Hnew|split; [exact Hcountry|exact Hjson]].
Defined.

Lemma port_check_rejects_witness :
  let r := Fixture.get "/port/65400" "127.0.0.1:5000" [] in
  ~ (numeric "65400" = true /\ 1 <= decimalValue "65400" <= 65355)
  /\ newPortResponse Fixture.platform Fixture.server r =
     ret (portOnly 65400, Some "invalid port: 65400").
Proof.
  intros r.
  assert (H : ~ (numeric "65400" = true /\ 1 <= decimalValue "65400" <= 65355)).
  { intros [_ [_ Hle]]. apply Hle. reflexivity. }
  split; [exact H|].
  exact (proj1 (port_check_rejects Fixture.platform Fixture.server r H)).
Defined.

Lemma rejected_port_on_the_wire_witness :
  let r := Fixture.get "/port/foo" "127.0.0.1:5000" [] in
  ~ (numeric "foo" = true /\ 1 <= decimalValue "foo" <= 65355)
  /\ exists w,
       served (PortHandler Fixture.platform Fixture.initial Fixture.server) r = Some w
       /\ status w = Some StatusBadRequest
       /\ sentHeader w "Content-Type" = Some ["application/json"]
       /\ json.readError (body w) = Some "Invalid port: 0".
Proof.
  intros r.
  assert (H : ~ (numeric "foo" = true /\ 1 <= decimalValue "foo" <= 65355)).
  { intros [Hnum _]. discriminate. }
  split; [exact H|].
  exact (rejected_port_on_the_wire Fixture.platform Fixture.initial Fixture.server r H).
Defined.

Lemma PortHandler_document_witness :
  let r := Fixture.get "/port/0080" "127.0.0.1:5000" [] in
  numeric "0080" = true
  /\ 1 <= decimalValue "0080" <= 65355
  /\ PortHandler Fixture.platform Fixture.initial Fixture.server r =
     Some ([SetHeader "Content-Type" "application/json";
            Write (json.object [("ip", json.quote "127.0.0.1");
                                ("port", "80");
                                ("reachable", "true")])], None).
Proof.
  intros r.
  assert (H : 1 <= decimalValue "0080" <= 65355)
    by (split; intro Hc; vm_compute in Hc; discriminate).
  split; [reflexivity|split; [exact H|]].
  exact (proj1 (PortHandler_document Fixture.platform Fixture.initial Fixture.server r
                  (Fixture.v4 127 0 0 1) Fixture.lookupPort
                  eq_refl H eq_refl eq_refl eq_refl)).
Defined.


Lemma JSONHandler_minimal_document_witness :
  let r := Fixture.get "/json" "10.0.0.1:5000" [] in
  let s := {| Template := ""; IPHeader := ""; LookupAddr := None;
              LookupPort := None; db := Fixture.testDb |} in
  ipFromRequest Fixture.platform (IPHeader s) r = (Fixture.v4 10 0 0 1, None)
  /\ JSONHandler Fixture.platform Fixture.initial s r =
     Some ([SetHeader "Content-Type" "application/json";
            Write (json.object [("ip", json.quote "10.0.0.1");
                                ("ip_decimal", "167772161")])], None).
Proof.
  intros r s. split; [reflexivity|].
  exact (JSONHandler_minimal_document Fixture.platform Fixture.initial s r
           (Fixture.v4 10 0 0 1) eq_refl eq_refl eq_refl eq_refl I).
Defined.
